(** * School Merchandise Store API: the order endpoint

    A shallow embedding of [create_order] (src/main.py) and of the
    persisted models [OrderItem] and [Order] (src/schemas.py), with the
    properties of the order computation proved about it.

    Conventions of the embedding:
    - a Python [float] is a binary64 float: Rocq's primitive [float], with
      [+] as [PrimFloat.add], [*] as [PrimFloat.mul] and [>=] as
      [PrimFloat.leb] with its arguments swapped;
    - a Python [int] is a [Z]; a product with a [float] converts it first
      ([PyLong_AsDouble]), which raises [OverflowError] out of range;
    - a Python [str] is the [string] of its bytes in UTF-8; [str_len]
      counts its characters and [chars] lists them;
    - the value of a field of a product document is a [value]: [None], a
      [bool], an [int], a [float], a [str], a list or an [ObjectId]; what
      [float] makes of a [str] is left open ([FloatOfStr]);
    - a [dict] is a [gmap]; a [set] of strings is a [gset];
    - an exception is a value of [exn], and a computation that may raise
      returns a [result]. *)

From Stdlib Require Import ZArith NArith String Ascii List Bool Floats Lia.
From stdpp Require Import gmap strings list fin_maps pretty.

Local Open Scope string_scope.
Local Open Scope Z_scope.

(** ** Exceptions *)

Inductive exn : Type :=
  | HTTPException (status_code : Z) (detail : string)
  | KeyError (key : string)
  | ValidationError (model : string)
  | OverflowError
  | TypeError
  | ValueError.

Inductive result (A : Type) : Type :=
  | Ok (a : A)
  | Raise (e : exn).

Arguments Ok {A} a.
Arguments Raise {A} e.

Definition bind {A B : Type} (r : result A) (k : A -> result B) : result B :=
  match r with
  | Ok a => k a
  | Raise e => Raise e
  end.

Notation "'try' x := r 'in' k" := (bind r (fun x => k))
  (at level 10, x name, r at level 100, k at level 200).

(** ** Python built-ins used by the endpoint *)

(** A byte that continues a character in UTF-8: 10xxxxxx. *)
Definition is_continuation (c : ascii) : bool :=
  let n := N_of_ascii c in ((128 <=? n) && (n <? 192))%N.

(** [len(s)]: the number of characters of a [str], one for each byte that
    does not continue a character. *)
Fixpoint str_len (s : string) : nat :=
  match s with
  | EmptyString => 0%nat
  | String c s' => ((if is_continuation c then 0 else 1) + str_len s')%nat
  end.

(** The characters of a [str], in order: each is a byte with the bytes
    that continue it. [continues s] says that [s] starts in the middle of a
    character. *)
Definition continues (s : string) : bool :=
  match s with
  | EmptyString => false
  | String d _ => is_continuation d
  end.

Fixpoint chars (s : string) : list string :=
  match s with
  | EmptyString => []
  | String c s' =>
      match chars s' with
      | h :: t =>
          if continues s' then String c h :: t
          else String c EmptyString :: h :: t
      | [] => [String c EmptyString]
      end
  end.

(** The code point of a character: the low bits of its first byte, then
    six bits of each byte that continues it. *)
Definition code_point (ch : string) : N :=
  match ch with
  | EmptyString => 0%N
  | String c rest =>
      let n := N_of_ascii c in
      let lead :=
        (if n <? 128 then n else if n <? 224 then n mod 32
         else if n <? 240 then n mod 16 else n mod 8)%N in
      fold_left (fun acc d => (acc * 64 + N_of_ascii d mod 64)%N)
        (list_ascii_of_string rest) lead
  end.

(** The white space of [str.strip()] and [str.isspace()], by code point:
    TAB..CR, FS..US, SPACE, NEL, NO-BREAK SPACE, OGHAM SPACE MARK, EN QUAD..
    HAIR SPACE, LINE and PARAGRAPH SEPARATOR, NARROW NO-BREAK SPACE, MEDIUM
    MATHEMATICAL SPACE and IDEOGRAPHIC SPACE. *)
Definition isspace (cp : N) : bool :=
  ((9 <=? cp) && (cp <=? 13) || (28 <=? cp) && (cp <=? 32)
   || (cp =? 133) || (cp =? 160) || (cp =? 5760)
   || (8192 <=? cp) && (cp <=? 8202) || (cp =? 8232) || (cp =? 8233)
   || (cp =? 8239) || (cp =? 8287) || (cp =? 12288))%N.

(** White space among the characters of a [str]. *)
Definition is_blank (ch : string) : bool := isspace (code_point ch).

Fixpoint lstrip (l : list string) : list string :=
  match l with
  | [] => []
  | ch :: l' => if is_blank ch then lstrip l' else l
  end.

Fixpoint rstrip (l : list string) : list string :=
  match l with
  | [] => []
  | ch :: l' =>
      match rstrip l' with
      | [] => if is_blank ch then [] else [ch]
      | r => ch :: r
      end
  end.

(** [s.strip()]: the characters of [s] without the white space at either
    end, put together again. *)
Definition strip (s : string) : string :=
  String.concat EmptyString (rstrip (lstrip (chars s))).

(** Truth value of a [str]: the empty string is false. *)
Definition str_truthy (s : string) : bool :=
  match s with
  | EmptyString => false
  | String _ _ => true
  end.

(** The correctly rounded binary64 value of an integer (infinite when the
    integer is out of range). *)
Definition Z2float (z : Z) : float :=
  SF2Prim (binary_normalize prec emax z 0 false).

(** The conversion of the [int] operand of [float * int]: it raises
    [OverflowError] when the integer is too large for a [float]. *)
Definition PyLong_AsDouble (z : Z) : result float :=
  if is_infinity (Z2float z) then Raise OverflowError else Ok (Z2float z).

(** ** bson.ObjectId

    An [ObjectId] holds bytes, twelve when the database made it.
    [ObjectId(s)] takes a [str] of 24 characters and reads its bytes with
    [bytes.fromhex], which reads pairs of hexadecimal digits of either case
    and skips ASCII white space before a pair; [str] renders the bytes in
    lower case. A [str] is valid when [ObjectId(s)] does not raise. *)
Module ObjectId.

Record t : Type := mk { binary : list N }.

#[global] Instance eq_dec : EqDecision t.
Proof. solve_decision. Defined.

Definition hex_value (c : ascii) : option N :=
  let n := N_of_ascii c in
  (if (48 <=? n) && (n <=? 57) then Some (n - 48)
   else if (97 <=? n) && (n <=? 102) then Some (n - 87)
   else if (65 <=? n) && (n <=? 70) then Some (n - 55)
   else None)%N.

(** The white space [bytes.fromhex] skips: TAB..CR and SPACE. *)
Definition is_ascii_space (c : ascii) : bool :=
  let n := N_of_ascii c in ((9 <=? n) && (n <=? 13) || (n =? 32))%N.

(** [bytes.fromhex(s)]; [None] stands for its [ValueError]. *)
Fixpoint fromhex (s : string) : option (list N) :=
  match s with
  | EmptyString => Some []
  | String a rest =>
      if is_ascii_space a then fromhex rest
      else
        match rest with
        | EmptyString => None
        | String b rest' =>
            match hex_value a, hex_value b, fromhex rest' with
            | Some x, Some y, Some l => Some ((16 * x + y)%N :: l)
            | _, _, _ => None
            end
        end
  end.

Definition hex_digit (n : N) : ascii :=
  ascii_of_N (if (n <? 10)%N then n + 48 else n + 87)%N.

Fixpoint hexlify (l : list N) : string :=
  match l with
  | [] => EmptyString
  | b :: l' =>
      String (hex_digit (b / 16)%N) (String (hex_digit (b mod 16)%N) (hexlify l'))
  end.

(** [ObjectId.is_valid(s)] for a [str]. *)
Definition is_valid (s : string) : bool :=
  (str_len s =? 24)%nat && bool_decide (is_Some (fromhex s)).

(** [ObjectId(s)]; the endpoint only builds it from a valid [s]. *)
Definition new (s : string) : t := mk (default [] (fromhex s)).

(** [str(oid)] *)
Definition str (o : t) : string := hexlify (binary o).

End ObjectId.

(** ** The values of a document

    The values a document holds. [VObjectId] is the type of the [_id] the
    database assigns. *)
#[warnings="-register-all"] Inductive value : Type :=
  | VNone
  | VBool (b : bool)
  | VInt (z : Z)
  | VFloat (f : float)
  | VStr (s : string)
  | VList (l : list value)
  | VObjectId (o : ObjectId.t).

(** [float(s)] for a [str]: the number Python reads in [s], or [None] for
    its [ValueError]. How Python reads a number is left open. *)
Class FloatOfStr : Type := float_of_str : string -> option float.

(** [float(v)]: a [float] is itself, an [int] is converted, [True] and
    [False] are 1.0 and 0.0, a [str] is read, anything else is a
    [TypeError]. *)
Definition py_float `{FloatOfStr} (v : value) : result float :=
  match v with
  | VFloat f => Ok f
  | VInt z => PyLong_AsDouble z
  | VBool b => Ok (if b then 1%float else 0%float)
  | VStr s =>
      match float_of_str s with
      | Some f => Ok f
      | None => Raise ValueError
      end
  | VNone | VList _ | VObjectId _ => Raise TypeError
  end.

(** ** Documents and models *)

(** A document of the collection [merchandiseproduct]. The endpoint reads
    its fields with [dict.get], so a field may be missing, and takes what it
    finds, so a field may hold any value. Its [colors] are never read. *)
Module ProductDoc.
Record t : Type := mk {
  _id : ObjectId.t;
  title : option value;
  category : option value;
  base_price : option value;
  colors : list string;
}.
End ProductDoc.

(** Request models (src/main.py). *)
Module CreateOrderItem.
Record t : Type := mk {
  product_id : string;
  color : string;
  quantity : Z;
  embroidery_text : option string;
}.
End CreateOrderItem.

Module CreateOrder.
Record t : Type := mk {
  customer_name : string;
  customer_email : string;
  items : list CreateOrderItem.t;
  notes : option string;
}.
End CreateOrder.

(** [value >= 0] on floats, the [ge=0] constraint of the schemas. *)
Definition ge0 (x : float) : bool := PrimFloat.leb 0 x.

(** Persisted models (src/schemas.py). [validate] is the check of the
    [Field] constraints that the constructor runs. *)
Module OrderItem.
Record t : Type := mk {
  product_id : string;
  title : string;
  category : string;
  color : string;
  quantity : Z;
  unit_price : float;
  embroidery_text : option string;
  embroidery_fee : float;
  line_total : float;
}.

Definition validate (x : t) : result t :=
  if (1 <=? quantity x) && ge0 (unit_price x) && ge0 (embroidery_fee x)
     && ge0 (line_total x)
  then Ok x else Raise (ValidationError "OrderItem").

(** [OrderItem(...)] as [create_order] calls it, with for title and
    category whatever the product document gave: a field declared [str]
    takes a [str] and nothing else. *)
Definition make (product_id : string) (title category : value) (color : string)
    (quantity : Z) (unit_price : float) (embroidery_text : option string)
    (embroidery_fee line_total : float) : result t :=
  match title, category with
  | VStr title, VStr category =>
      validate (mk product_id title category color quantity unit_price
                  embroidery_text embroidery_fee line_total)
  | _, _ => Raise (ValidationError "OrderItem")
  end.
End OrderItem.

Module Order.
Record t : Type := mk {
  customer_name : string;
  customer_email : string;
  items : list OrderItem.t;
  sub_total : float;
  embroidery_total : float;
  grand_total : float;
  notes : option string;
}.

Definition validate (x : t) : result t :=
  if ge0 (sub_total x) && ge0 (embroidery_total x) && ge0 (grand_total x)
  then Ok x else Raise (ValidationError "Order").
End Order.

(** ** The document store *)

(** The two collections. An order document is stored with the identifier
    the database assigned to it. *)
Record Store : Type := mkStore {
  merchandiseproduct : list ProductDoc.t;
  order : list (string * Order.t);
}.

(** [db["merchandiseproduct"].find({"_id": {"$in": ids}})]: the documents
    whose [_id] is one of [ids], each once, in the collection's order. *)
Definition find_id_in (coll : list ProductDoc.t) (ids : list ObjectId.t)
  : list ProductDoc.t :=
  List.filter (fun doc => bool_decide (ProductDoc._id doc ∈ ids)) coll.

(** ** The order endpoint (src/main.py, [create_order]) *)

Definition EMBROIDERY_FEE_PER_ITEM : float := 8%float.

Definition allowed_colors : gset string :=
  {[ "green"; "black"; "yellow"; "white" ]}.

(** The first loop: each item's color, then its quantity, in the order of
    the request. *)
Fixpoint check_items (its : list CreateOrderItem.t) : result unit :=
  match its with
  | [] => Ok tt
  | it :: rest =>
      if negb (bool_decide (CreateOrderItem.color it ∈ allowed_colors)) then
        Raise (HTTPException 400 ("Invalid color: " +:+ CreateOrderItem.color it))
      else if CreateOrderItem.quantity it <? 1 then
        Raise (HTTPException 400 "Quantity must be >= 1")
      else check_items rest
  end.

(** [[ObjectId(i.product_id) for i in payload.items
      if ObjectId.is_valid(i.product_id)]] *)
Definition collect_ids (its : list CreateOrderItem.t) : list ObjectId.t :=
  List.map (fun i => ObjectId.new (CreateOrderItem.product_id i))
    (List.filter (fun i => ObjectId.is_valid (CreateOrderItem.product_id i)) its).

(** The dictionary [products_map], filled from the documents found: a
    later document replaces an earlier one under the same key. *)
Definition build_products_map (docs : list ProductDoc.t)
  : gmap string ProductDoc.t :=
  fold_left (fun m doc => <[ObjectId.str (ProductDoc._id doc) := doc]> m) docs ∅.

(** [float(p.get("base_price", 0))] *)
Definition unit_price_of `{FloatOfStr} (p : ProductDoc.t) : result float :=
  py_float (default (VInt 0) (ProductDoc.base_price p)).

(** The truth value of [it.embroidery_text and it.embroidery_text.strip()] *)
Definition wants_embroidery (text : option string) : bool :=
  match text with
  | None => false
  | Some s => if str_truthy s then str_truthy (strip s) else false
  end.

(** The variables the second loop updates. *)
Record totals : Type := mkTotals {
  order_items : list OrderItem.t;
  sub_total : float;
  embroidery_total : float;
}.

(** One turn of the second loop. *)
Definition add_item `{FloatOfStr} (products_map : gmap string ProductDoc.t)
    (acc : totals) (it : CreateOrderItem.t) : result totals :=
  match products_map !! CreateOrderItem.product_id it with
  | None => Raise (KeyError (CreateOrderItem.product_id it))
  | Some p =>
      try unit := unit_price_of p in
      let embroidery_fee :=
        if wants_embroidery (CreateOrderItem.embroidery_text it)
        then EMBROIDERY_FEE_PER_ITEM else 0%float in
      try q := PyLong_AsDouble (CreateOrderItem.quantity it) in
      let line_total := ((unit + embroidery_fee) * q)%float in
      let sub_total' := (sub_total acc + unit * q)%float in
      let embroidery_total' := (embroidery_total acc + embroidery_fee * q)%float in
      try oi := OrderItem.make
        (CreateOrderItem.product_id it)
        (default (VStr EmptyString) (ProductDoc.title p))
        (default (VStr EmptyString) (ProductDoc.category p))
        (CreateOrderItem.color it)
        (CreateOrderItem.quantity it)
        unit
        (CreateOrderItem.embroidery_text it)
        embroidery_fee
        line_total in
      Ok {| order_items := order_items acc ++ [oi];
            sub_total := sub_total';
            embroidery_total := embroidery_total' |}
  end.

Fixpoint add_items `{FloatOfStr} (products_map : gmap string ProductDoc.t)
    (acc : totals) (its : list CreateOrderItem.t) : result totals :=
  match its with
  | [] => Ok acc
  | it :: rest =>
      try acc' := add_item products_map acc it in
      add_items products_map acc' rest
  end.

(** The value of [products_map] after the lookup loop. *)
Definition products_map_of (coll : list ProductDoc.t)
    (its : list CreateOrderItem.t) : gmap string ProductDoc.t :=
  build_products_map (find_id_in coll (collect_ids its)).

(** Everything [create_order] does before it calls [create_document]: the
    order it built, and its local [grand_total]. *)
Definition build_order `{FloatOfStr} (coll : list ProductDoc.t)
    (payload : CreateOrder.t)
  : result (Order.t * float) :=
  let its := CreateOrder.items payload in
  try _checked := check_items its in
  let ids := collect_ids its in
  if negb (length ids =? length its)%nat then
    Raise (HTTPException 400 "Invalid product id")
  else
    let products_map := build_products_map (find_id_in coll ids) in
    if negb (size products_map =? length its)%nat then
      Raise (HTTPException 400 "One or more products not found")
    else
      try acc := add_items products_map
                   {| order_items := []; sub_total := 0%float;
                      embroidery_total := 0%float |} its in
      let grand_total := (sub_total acc + embroidery_total acc)%float in
      try order := Order.validate
        {| Order.customer_name := CreateOrder.customer_name payload;
           Order.customer_email := CreateOrder.customer_email payload;
           Order.items := order_items acc;
           Order.sub_total := sub_total acc;
           Order.embroidery_total := embroidery_total acc;
           Order.grand_total := grand_total;
           Order.notes := CreateOrder.notes payload |} in
      Ok (order, grand_total).

(** The body of the 201 response. *)
Record Created : Type := mkCreated {
  id : string;
  grand_total : float;
}.

(** The status of the HTTP response: 201 for a returned body, the status
    of an [HTTPException], 500 for any other exception. *)
Definition status_of (r : result Created) : Z :=
  match r with
  | Ok _ => 201
  | Raise (HTTPException status _) => status
  | Raise _ => 500
  end.

Section Endpoint.

Context {reading : FloatOfStr}.

(** The identifier the database assigns to the next order document; nothing
    is assumed about it. *)
Variable new_id : list (string * Order.t) -> string.

(** Modelled from the spec: [create_document] of the module [database],
    which is not among the sources, as the endpoint calls it,
    [create_document("order", order)]. The Order Repository "persists the
    constructed order document and returns its assigned identifier". *)
Definition create_document (st : Store) (o : Order.t) : string * Store :=
  let order_id := new_id (order st) in
  (order_id,
   {| merchandiseproduct := merchandiseproduct st;
      order := order st ++ [(order_id, o)] |}).

Definition create_order (st : Store) (payload : CreateOrder.t)
  : result Created * Store :=
  match build_order (merchandiseproduct st) payload with
  | Raise e => (Raise e, st)
  | Ok (order, grand_total) =>
      let '(order_id, st') := create_document st order in
      (Ok {| id := order_id; grand_total := grand_total |}, st')
  end.

End Endpoint.

(** ** Vocabulary of the statements *)

(** An item that passes the first loop. *)
Definition item_ok (it : CreateOrderItem.t) : Prop :=
  CreateOrderItem.color it ∈ allowed_colors ∧ 1 <= CreateOrderItem.quantity it.

(** An embroidery text that is present and not blank once trimmed. *)
Definition nonblank (text : option string) : Prop :=
  ∃ s, text = Some s ∧ strip s ≠ EmptyString.

(** An embroidery text that is absent, or blank once trimmed. *)
Definition blank_or_absent (text : option string) : Prop :=
  text = None ∨ ∃ s, text = Some s ∧ strip s = EmptyString.

(** The sum of a list of floats, accumulated from 0.0 from left to right
    as the loop does. *)
Definition fsum (l : list float) : float := fold_left PrimFloat.add l 0%float.

(** What one item adds to [sub_total] and to [embroidery_total]. *)
Definition unit_part (oi : OrderItem.t) : float :=
  (OrderItem.unit_price oi * Z2float (OrderItem.quantity oi))%float.

Definition embroidery_part (oi : OrderItem.t) : float :=
  (OrderItem.embroidery_fee oi * Z2float (OrderItem.quantity oi))%float.

(** Two product documents that differ at most in their [colors]. *)
Definition same_but_colors (p q : ProductDoc.t) : Prop :=
  ProductDoc._id p = ProductDoc._id q
  ∧ ProductDoc.title p = ProductDoc.title q
  ∧ ProductDoc.category p = ProductDoc.category q
  ∧ ProductDoc.base_price p = ProductDoc.base_price q.

(** The line item the second loop builds for a request item, field by
    field, from the product found under the item's [product_id]. *)
Definition snapshot_of `{FloatOfStr} (products_map : gmap string ProductDoc.t)
    (it : CreateOrderItem.t) (oi : OrderItem.t) : Prop :=
  ∃ p, products_map !! CreateOrderItem.product_id it = Some p
    ∧ OrderItem.product_id oi = CreateOrderItem.product_id it
    ∧ VStr (OrderItem.title oi) = default (VStr EmptyString) (ProductDoc.title p)
    ∧ VStr (OrderItem.category oi)
      = default (VStr EmptyString) (ProductDoc.category p)
    ∧ OrderItem.color oi = CreateOrderItem.color it
    ∧ OrderItem.quantity oi = CreateOrderItem.quantity it
    ∧ OrderItem.embroidery_text oi = CreateOrderItem.embroidery_text it
    ∧ unit_price_of p = Ok (OrderItem.unit_price oi)
    ∧ OrderItem.embroidery_fee oi
      = (if wants_embroidery (CreateOrderItem.embroidery_text it)
         then 8%float else 0%float)
    ∧ OrderItem.line_total oi
      = ((OrderItem.unit_price oi + OrderItem.embroidery_fee oi)
         * Z2float (OrderItem.quantity oi))%float.

(** A product document with its [colors] replaced. *)
Definition with_colors (cs : list string) (p : ProductDoc.t) : ProductDoc.t :=
  {| ProductDoc._id := ProductDoc._id p;
     ProductDoc.title := ProductDoc.title p;
     ProductDoc.category := ProductDoc.category p;
     ProductDoc.base_price := ProductDoc.base_price p;
     ProductDoc.colors := cs |}.

(** A product document in which a missing [base_price] is written out as
    0.0. *)
Definition with_explicit_price (p : ProductDoc.t) : ProductDoc.t :=
  {| ProductDoc._id := ProductDoc._id p;
     ProductDoc.title := ProductDoc.title p;
     ProductDoc.category := ProductDoc.category p;
     ProductDoc.base_price :=
       Some (default (VFloat 0%float) (ProductDoc.base_price p));
     ProductDoc.colors := ProductDoc.colors p |}.

(** An exception that carries its own HTTP status. *)
Definition is_http (e : exn) : Prop :=
  match e with HTTPException _ _ => True | _ => False end.

(** The keys [products_map] can have: the identifiers of the request,
    parsed and printed back. *)
Definition requested_keys (its : list CreateOrderItem.t) : list string :=
  List.map (fun it => ObjectId.str (ObjectId.new (CreateOrderItem.product_id it))) its.

(** ** A small shop, for the examples *)

Definition hoodie_id : string := "64b7f3a2c9e1d4f5a6b7c8d9".
Definition beanie_id : string := "64b7f3a2c9e1d4f5a6b7c8da".

(** A hoodie at 20.0 that declares the single color green. *)
Definition hoodie : ProductDoc.t :=
  {| ProductDoc._id := ObjectId.new hoodie_id;
     ProductDoc.title := Some (VStr "Classic Hoodie");
     ProductDoc.category := Some (VStr "hoodie");
     ProductDoc.base_price := Some (VFloat 20%float);
     ProductDoc.colors := ["green"] |}.

(** A beanie whose document has no [base_price]. *)
Definition beanie : ProductDoc.t :=
  {| ProductDoc._id := ObjectId.new beanie_id;
     ProductDoc.title := Some (VStr "Beanie");
     ProductDoc.category := Some (VStr "beanie");
     ProductDoc.base_price := None;
     ProductDoc.colors := ["black"] |}.

Definition shop : Store :=
  {| merchandiseproduct := [hoodie; beanie]; order := [] |}.

(** An identifier generator that numbers the orders of the collection. *)
Definition numbered (orders : list (string * Order.t)) : string :=
  "order-" +:+ pretty (length orders).

Definition request (its : list CreateOrderItem.t) : CreateOrder.t :=
  {| CreateOrder.customer_name := "Sam";
     CreateOrder.customer_email := "sam@example.org";
     CreateOrder.items := its;
     CreateOrder.notes := None |}.

Definition item (pid color : string) (quantity : Z) (text : option string)
  : CreateOrderItem.t :=
  {| CreateOrderItem.product_id := pid;
     CreateOrderItem.color := color;
     CreateOrderItem.quantity := quantity;
     CreateOrderItem.embroidery_text := text |}.

(** Two black hoodies embroidered "Sam" (the example of the spec). *)
Definition sam_order : CreateOrder.t :=
  request [item hoodie_id "black" 2 (Some "Sam")].

(** A hoodie and three embroidered beanies. *)
Definition mixed_order : CreateOrder.t :=
  request [item hoodie_id "white" 1 (Some "  ");
           item beanie_id "yellow" 3 (Some " Jo ")].

(** The same product twice, with quantities 1 and 3. *)
Definition twice_order : CreateOrder.t :=
  request [item hoodie_id "black" 1 None; item hoodie_id "black" 3 None].

(** A valid first item, then a quantity of 0, then a color off the palette. *)
Definition bad_order : CreateOrder.t :=
  request [item hoodie_id "green" 1 None; item hoodie_id "green" 0 None;
           item hoodie_id "purple" 1 None].

(** The same shop after a repaint: other [colors], nothing else changed. *)
Definition repainted_shop : Store :=
  {| merchandiseproduct := [with_colors ["white"] hoodie; with_colors [] beanie];
     order := [] |}.

(** What [sam_order] is expected to store and to answer. *)
Definition sam_stored : Order.t :=
  {| Order.customer_name := "Sam";
     Order.customer_email := "sam@example.org";
     Order.items :=
       [ {| OrderItem.product_id := hoodie_id;
            OrderItem.title := "Classic Hoodie";
            OrderItem.category := "hoodie";
            OrderItem.color := "black";
            OrderItem.quantity := 2;
            OrderItem.unit_price := 20%float;
            OrderItem.embroidery_text := Some "Sam";
            OrderItem.embroidery_fee := 8%float;
            OrderItem.line_total := 56%float |} ];
     Order.sub_total := 40%float;
     Order.embroidery_total := 16%float;
     Order.grand_total := 56%float;
     Order.notes := None |}.

Definition sam_created : Created := {| id := "order-0"; grand_total := 56%float |}.

Definition sam_shop : Store :=
  {| merchandiseproduct := [hoodie; beanie]; order := [("order-0", sam_stored)] |}.

(** What [mixed_order] is expected to store and to answer. *)
Definition mixed_stored : Order.t :=
  {| Order.customer_name := "Sam";
     Order.customer_email := "sam@example.org";
     Order.items :=
       [ {| OrderItem.product_id := hoodie_id;
            OrderItem.title := "Classic Hoodie";
            OrderItem.category := "hoodie";
            OrderItem.color := "white";
            OrderItem.quantity := 1;
            OrderItem.unit_price := 20%float;
            OrderItem.embroidery_text := Some "  ";
            OrderItem.embroidery_fee := 0%float;
            OrderItem.line_total := 20%float |};
         {| OrderItem.product_id := beanie_id;
            OrderItem.title := "Beanie";
            OrderItem.category := "beanie";
            OrderItem.color := "yellow";
            OrderItem.quantity := 3;
            OrderItem.unit_price := 0%float;
            OrderItem.embroidery_text := Some " Jo ";
            OrderItem.embroidery_fee := 8%float;
            OrderItem.line_total := 24%float |} ];
     Order.sub_total := 20%float;
     Order.embroidery_total := 24%float;
     Order.grand_total := 44%float;
     Order.notes := None |}.

Definition mixed_created : Created := {| id := "order-0"; grand_total := 44%float |}.

Definition mixed_shop : Store :=
  {| merchandiseproduct := [hoodie; beanie]; order := [("order-0", mixed_stored)] |}.

(** ** Vocabulary of the further properties *)

(** The constraints of the schema on one stored item. *)
Definition item_within_schema (oi : OrderItem.t) : Prop :=
  1 <= OrderItem.quantity oi
  ∧ ge0 (OrderItem.unit_price oi) = true
  ∧ ge0 (OrderItem.embroidery_fee oi) = true
  ∧ ge0 (OrderItem.line_total oi) = true.

(** A price that [float] can take: a [float], an [int], a [bool], or no
    price at all. *)
Definition number_or_missing (v : option value) : Prop :=
  match v with
  | None | Some (VFloat _) | Some (VInt _) | Some (VBool _) => True
  | _ => False
  end.

(** A product identifier written the way the database prints it: reading
    it and printing it back gives the same string. *)
Definition canonical_id (s : string) : Prop :=
  ObjectId.str (ObjectId.new s) = s.

(** A quantity that a [float] can hold. *)
Definition fits_float (q : Z) : Prop := is_infinity (Z2float q) = false.

(** A request for two to the power 1024 hoodies. *)
Definition huge_order : CreateOrder.t :=
  request [item hoodie_id "black" (2 ^ 1024) None].

(** A shop that also has a scarf priced below zero. *)
Definition scarf_id : string := "64b7f3a2c9e1d4f5a6b7c8db".

Definition scarf : ProductDoc.t :=
  {| ProductDoc._id := ObjectId.new scarf_id;
     ProductDoc.title := Some (VStr "Scarf");
     ProductDoc.category := Some (VStr "beanie");
     ProductDoc.base_price := Some (VFloat (-5)%float);
     ProductDoc.colors := [] |}.

Definition odd_shop : Store :=
  {| merchandiseproduct := [hoodie; beanie; scarf]; order := [] |}.

(** A request for a product that the shop does not have. *)
Definition missing_id : string := "000000000000000000000000".

Definition missing_order : CreateOrder.t :=
  request [item hoodie_id "black" 1 None; item missing_id "green" 1 None].

(** ** Documents as dictionaries, and the product endpoints *)

(** The database with its product documents as the dictionaries they are.
    [Store] above is what [create_order] reads of it. *)
Record Database : Type := mkDatabase {
  product_docs : list (gmap string value);
  order_docs : list (string * Order.t);
}.

Definition as_str (v : value) : option string :=
  match v with VStr s => Some s | _ => None end.

(** A product document as [create_order] meets it: its [_id] and the three
    fields the endpoint reads, as they are. A document whose [_id] is not an
    [ObjectId] is matched by no query of the endpoint. *)
Definition as_product (d : gmap string value) : option ProductDoc.t :=
  match d !! "_id" with
  | Some (VObjectId o) =>
      Some {| ProductDoc._id := o;
              ProductDoc.title := d !! "title";
              ProductDoc.category := d !! "category";
              ProductDoc.base_price := d !! "base_price";
              ProductDoc.colors :=
                match d !! "colors" with
                | Some (VList l) => omap as_str l
                | _ => []
                end |}
  | _ => None
  end.

Definition store_of (db : Database) : Store :=
  {| merchandiseproduct := omap as_product (product_docs db);
     order := order_docs db |}.

(** Request model of [create_product] (src/main.py). *)
Module CreateProduct.
Record t : Type := mk {
  title : string;
  category : string;
  description : option string;
  base_price : float;
  colors : list string;
  images : list string;
  in_stock : bool;
}.
End CreateProduct.

(** Persisted model of a product (src/schemas.py). *)
Module MerchandiseProduct.
Record t : Type := mk {
  title : string;
  category : string;
  description : option string;
  base_price : float;
  colors : list string;
  images : list string;
  in_stock : bool;
}.

Definition validate (x : t) : result t :=
  if ge0 (base_price x) then Ok x else Raise (ValidationError "MerchandiseProduct").

(** [model.model_dump()] *)
Definition model_dump (x : t) : gmap string value :=
  <["title" := VStr (title x)]>
  (<["category" := VStr (category x)]>
  (<["description" := from_option VStr VNone (description x)]>
  (<["base_price" := VFloat (base_price x)]>
  (<["colors" := VList (VStr <$> colors x)]>
  (<["images" := VList (VStr <$> images x)]>
  (<["in_stock" := VBool (in_stock x)]> ∅)))))).
End MerchandiseProduct.

(** The two sets of [create_product]. *)
Definition allowed_cats : gset string :=
  {[ "hoodie"; "beanie"; "shirt"; "trackpants" ]}.

Definition allowed_colors_of_products : gset string :=
  {[ "green"; "black"; "yellow"; "white" ]}.

(** The body of the 201 response of [create_product]. *)
Record CreatedProduct : Type := mkCreatedProduct { new_product_id : string }.

Section Products.

(** [str] of a value that is neither an [ObjectId] nor a [str]; how Python
    prints the other values is left open. *)
Variable repr : value -> string.

Definition py_str (v : value) : string :=
  match v with
  | VObjectId o => ObjectId.str o
  | VStr s => s
  | _ => repr v
  end.

(** [to_str_id] (src/main.py): a copy of the document in which [_id], when
    there is one, gives way to [id], its printed form. *)
Definition to_str_id (doc : option (gmap string value))
  : option (gmap string value) :=
  match doc with
  | None => None
  | Some d =>
      Some match d !! "_id" with
           | Some v => <["id" := VStr (py_str v)]> (delete "_id" d)
           | None => d
           end
  end.

(** Modelled from the spec: [get_documents] of the module [database], which
    is not among the sources, as [list_products] calls it,
    [get_documents("merchandiseproduct")]: the documents of the collection. *)
Definition get_documents (db : Database) : list (gmap string value) :=
  product_docs db.

(** [list_products] (src/main.py) *)
Definition list_products (db : Database) : list (option (gmap string value)) :=
  List.map (fun d => to_str_id (Some d)) (get_documents db).

(** The [ObjectId] the database assigns to the next product document;
    nothing is assumed about it. *)
Variable new_oid : list (gmap string value) -> ObjectId.t.

(** Modelled from the spec: [create_document] of the module [database], as
    [create_product] calls it, [create_document("merchandiseproduct", model)].
    The document stored is the dump of the model under a new [_id], and the
    identifier returned is that [_id] "rendered as a string". *)
Definition create_product_document (db : Database) (model : MerchandiseProduct.t)
  : string * Database :=
  let oid := new_oid (product_docs db) in
  (ObjectId.str oid,
   {| product_docs :=
        product_docs db
        ++ [<["_id" := VObjectId oid]> (MerchandiseProduct.model_dump model)];
      order_docs := order_docs db |}).

(** [create_product] (src/main.py) *)
Definition create_product (db : Database) (payload : CreateProduct.t)
  : result CreatedProduct * Database :=
  if negb (bool_decide (CreateProduct.category payload ∈ allowed_cats)) then
    (Raise (HTTPException 400 "Invalid category"), db)
  else if existsb (fun c => negb (bool_decide (c ∈ allowed_colors_of_products)))
            (CreateProduct.colors payload) then
    (Raise (HTTPException 400 "One or more invalid colors"), db)
  else
    match MerchandiseProduct.validate
            {| MerchandiseProduct.title := CreateProduct.title payload;
               MerchandiseProduct.category := CreateProduct.category payload;
               MerchandiseProduct.description := CreateProduct.description payload;
               MerchandiseProduct.base_price := CreateProduct.base_price payload;
               MerchandiseProduct.colors := CreateProduct.colors payload;
               MerchandiseProduct.images := CreateProduct.images payload;
               MerchandiseProduct.in_stock := CreateProduct.in_stock payload |}
    with
    | Raise e => (Raise e, db)
    | Ok model =>
        let '(new_id, db') := create_product_document db model in
        (Ok {| new_product_id := new_id |}, db')
    end.

End Products.

(** An [ObjectId] as the database makes them: twelve bytes. *)
Definition proper_oid (o : ObjectId.t) : Prop :=
  length (ObjectId.binary o) = 12%nat
  ∧ Forall (fun b => (b < 256)%N) (ObjectId.binary o).

(** ** The diagnostic endpoint ([test_database], src/main.py) *)

(** [s[:n]]: the first [n] characters of [s], each with the bytes that
    continue it. *)
Fixpoint str_slice_to (n : nat) (s : string) : string :=
  match s with
  | EmptyString => EmptyString
  | String c s' =>
      if is_continuation c then String c (str_slice_to n s')
      else
        match n with
        | O => EmptyString
        | S n' => String c (str_slice_to n' s')
        end
  end.

(** The module-level [db] as the endpoint meets it: a database whose
    [list_collection_names()] returns names, or raises an exception that
    prints as a message. No database at all is [None]. *)
Inductive db_handle : Type :=
  | Listing (names : list string)
  | ListingRaises (message : string).

(** The dictionary the endpoint returns. *)
Record Diagnosis : Type := mkDiagnosis {
  backend : string;
  database : string;
  database_url : option string;
  database_name : option string;
  connection_status : string;
  collections : list string;
}.

Definition set_database (v : string) (r : Diagnosis) : Diagnosis :=
  {| backend := backend r; database := v; database_url := database_url r;
     database_name := database_name r; connection_status := connection_status r;
     collections := collections r |}.

Definition set_database_url (v : option string) (r : Diagnosis) : Diagnosis :=
  {| backend := backend r; database := database r; database_url := v;
     database_name := database_name r; connection_status := connection_status r;
     collections := collections r |}.

Definition set_database_name (v : option string) (r : Diagnosis) : Diagnosis :=
  {| backend := backend r; database := database r; database_url := database_url r;
     database_name := v; connection_status := connection_status r;
     collections := collections r |}.

Definition set_connection_status (v : string) (r : Diagnosis) : Diagnosis :=
  {| backend := backend r; database := database r; database_url := database_url r;
     database_name := database_name r; connection_status := v;
     collections := collections r |}.

Definition set_collections (v : list string) (r : Diagnosis) : Diagnosis :=
  {| backend := backend r; database := database r; database_url := database_url r;
     database_name := database_name r; connection_status := connection_status r;
     collections := v |}.

(** ["✅ Set" if os.getenv(name) else "❌ Not Set"]: a variable that is
    unset, or set to the empty string, is not set. *)
Definition set_or_not (v : option string) : string :=
  if from_option str_truthy false v then "✅ Set" else "❌ Not Set".

(** [test_database], given the [db] of the module and the environment.
    Outside the inner [try] no step raises, so the outer handler is never
    entered. *)
Definition test_database (db : option db_handle) (getenv : string -> option string)
  : Diagnosis :=
  let response :=
    {| backend := "✅ Running";
       database := "❌ Not Available";
       database_url := None;
       database_name := None;
       connection_status := "Not Connected";
       collections := [] |} in
  match db with
  | Some handle =>
      let response := set_database "✅ Available" response in
      let response :=
        set_database_url (Some (set_or_not (getenv "DATABASE_URL"))) response in
      let response :=
        set_database_name (Some (set_or_not (getenv "DATABASE_NAME"))) response in
      match handle with
      | Listing names =>
          let response := set_collections (take 10 names) response in
          let response := set_database "✅ Connected & Working" response in
          set_connection_status "Connected" response
      | ListingRaises message =>
          set_database ("⚠️ Connected but Error: " +:+ str_slice_to 50 message)
            response
      end
  | None => set_database "⚠️ Available but not initialized" response
  end.

(** ** More examples *)

(** A request for the scarf of [odd_shop]. *)
Definition scarf_order : CreateOrder.t :=
  request [item scarf_id "black" 1 None].

(** A database with nothing in it, and a hoodie to put there. *)
Definition empty_db : Database := {| product_docs := []; order_docs := [] |}.

Definition hoodie_payload : CreateProduct.t :=
  {| CreateProduct.title := "Classic Hoodie";
     CreateProduct.category := "hoodie";
     CreateProduct.description := None;
     CreateProduct.base_price := 20%float;
     CreateProduct.colors := ["green"; "black"];
     CreateProduct.images := [];
     CreateProduct.in_stock := true |}.

(** A generator that gives the first product the identifier [hoodie_id]. *)
Definition first_oid (docs : list (gmap string value)) : ObjectId.t :=
  ObjectId.new hoodie_id.

(** A printer of the other values, for the examples. *)
Definition question_mark (v : value) : string := "?".

Definition hoodie_document : gmap string value :=
  <["_id" := VObjectId (ObjectId.new hoodie_id)]>
  (<["title" := VStr "Classic Hoodie"]>
  (<["category" := VStr "hoodie"]>
  (<["description" := VNone]>
  (<["base_price" := VFloat 20%float]>
  (<["colors" := VList [VStr "green"; VStr "black"]]>
  (<["images" := VList []]>
  (<["in_stock" := VBool true]> ∅))))))).

Definition hoodie_db : Database :=
  {| product_docs := [hoodie_document]; order_docs := [] |}.

Definition hoodie_created : CreatedProduct := {| new_product_id := hoodie_id |}.

(** A reading of numbers that reads none, for the examples: no example
    holds a [str] where a number is expected. *)
Definition reads_no_number : FloatOfStr := fun _ => None.

(** U+2003 EM SPACE and U+00E9, the letter e with an acute accent, each one
    character of several bytes. *)
Definition em_space : string :=
  String (ascii_of_N 226) (String (ascii_of_N 128) (String (ascii_of_N 131) EmptyString)).

Definition e_acute : string :=
  String (ascii_of_N 195) (String (ascii_of_N 169) EmptyString).

(** 24 characters that [bytes.fromhex] reads: 22 digits and two spaces. *)
Definition spaced_id : string := "64b7f3a2c9e1d4f5a6b7c8  ".

(** The shop with other values in the fields of the hoodie: a price that is
    an [int], a price that is [None], a title that is an [int]. *)
Definition hoodie_with (title base_price : option value) : ProductDoc.t :=
  {| ProductDoc._id := ObjectId.new hoodie_id;
     ProductDoc.title := title;
     ProductDoc.category := Some (VStr "hoodie");
     ProductDoc.base_price := base_price;
     ProductDoc.colors := ["green"] |}.

Definition shop_with (title base_price : option value) : Store :=
  {| merchandiseproduct := [hoodie_with title base_price; beanie]; order := [] |}.

(** * Properties

    What follows holds however Python reads a number in a [str]. *)

Section Properties.

Context {reading : FloatOfStr}.

(** ** The result monad *)

Lemma bind_Ok {A B : Type} (r : result A) (k : A -> result B) (b : B) :
  bind r k = Ok b -> ∃ a, r = Ok a ∧ k a = Ok b.
Proof. destruct r as [a|e]; simpl; [eauto | discriminate]. Qed.

Lemma bind_Raise {A B : Type} (r : result A) (k : A -> result B) (e : exn) :
  bind r k = Raise e -> r = Raise e ∨ ∃ a, r = Ok a ∧ k a = Raise e.
Proof. destruct r as [a|e']; simpl; [eauto | intros [= ->]; auto]. Qed.

(** ** Trimming *)

Lemma chars_not_empty (s : string) :
  Forall (fun ch => ch ≠ EmptyString) (chars s).
Proof.
  induction s as [|c s IH]; simpl; [constructor |].
  destruct (chars s) as [|h t]; [repeat constructor; discriminate |].
  inversion IH; subst.
  destruct (continues s); repeat constructor; assumption || discriminate.
Qed.

Lemma concat_empty_iff (l : list string) :
  Forall (fun ch => ch ≠ EmptyString) l ->
  String.concat EmptyString l = EmptyString <-> l = [].
Proof.
  intros Hl; split; [| now intros ->].
  destruct Hl as [|h t Hh _]; [reflexivity |].
  destruct h as [|c h]; [now destruct Hh |].
  destruct t; simpl; discriminate.
Qed.

Lemma lstrip_keeps (P : string -> Prop) (l : list string) :
  Forall P l -> Forall P (lstrip l).
Proof.
  induction 1 as [|ch l Hch Hl IH]; simpl; [constructor |].
  destruct (is_blank ch); [exact IH | now constructor].
Qed.

Lemma rstrip_keeps (P : string -> Prop) (l : list string) :
  Forall P l -> Forall P (rstrip l).
Proof.
  induction 1 as [|ch l Hch Hl IH]; simpl; [constructor |].
  destruct (rstrip l); [| now constructor].
  destruct (is_blank ch); repeat constructor; assumption.
Qed.

Lemma rstrip_nil_iff (l : list string) :
  rstrip l = [] <-> Forall (fun ch => is_blank ch = true) l.
Proof.
  induction l as [|ch l IH]; simpl.
  - split; [constructor | reflexivity].
  - destruct (rstrip l) eqn:Hr.
    + destruct (is_blank ch) eqn:Hc; split; intros H.
      * constructor; [assumption | now apply IH].
      * reflexivity.
      * discriminate.
      * inversion H; subst; congruence.
    + split; [discriminate |].
      intros H; inversion H as [|? ? ? Hs]; subst.
      apply IH in Hs; discriminate.
Qed.

Lemma lstrip_all_blank (l : list string) :
  Forall (fun ch => is_blank ch = true) (lstrip l)
  <-> Forall (fun ch => is_blank ch = true) l.
Proof.
  induction l as [|ch l IH]; simpl; [reflexivity |].
  destruct (is_blank ch) eqn:Hc; simpl.
  - rewrite IH; split; intros H.
    + now constructor.
    + now inversion H.
  - reflexivity.
Qed.

(** [strip] leaves nothing exactly when every character is white space. *)
Lemma strip_empty_iff (s : string) :
  strip s = EmptyString
  <-> Forall (fun ch => isspace (code_point ch) = true) (chars s).
Proof.
  unfold strip.
  rewrite concat_empty_iff
    by (apply rstrip_keeps, lstrip_keeps, chars_not_empty).
  rewrite rstrip_nil_iff; apply lstrip_all_blank.
Qed.

Lemma wants_embroidery_nonblank (text : option string) :
  wants_embroidery text = true <-> nonblank text.
Proof.
  unfold wants_embroidery, nonblank; destruct text as [s|].
  - destruct s as [|c s]; simpl.
    + split; [discriminate | intros (s & [= <-] & H); now destruct H].
    + split.
      * intros H; exists (String c s); split; [reflexivity |].
        intros E; rewrite E in H; discriminate.
      * intros (s' & [= <-] & H).
        destruct (strip (String c s)); [now destruct H | reflexivity].
  - split; [discriminate | intros (s & [=] & _)].
Qed.

Lemma wants_embroidery_blank (text : option string) :
  wants_embroidery text = false <-> blank_or_absent text.
Proof.
  unfold blank_or_absent; split.
  - intros H; destruct text as [s|]; [right | now left].
    exists s; split; [reflexivity |].
    destruct (strip s) eqn:E; [reflexivity |].
    assert (wants_embroidery (Some s) = true) as H'
      by (apply wants_embroidery_nonblank; exists s; split; [reflexivity | congruence]).
    congruence.
  - intros H; destruct (wants_embroidery text) eqn:E; [| reflexivity].
    apply wants_embroidery_nonblank in E as (s & -> & Hs).
    destruct H as [[=]|(s' & [= <-] & Hs')]; contradiction.
Qed.

(** ** The first loop *)

(** Membership in the palette, as the endpoint computes it. *)
Lemma allowed_colors_check (c : string) :
  bool_decide (c ∈ allowed_colors) = true -> c ∈ allowed_colors.
Proof. apply bool_decide_eq_true_1. Qed.

Lemma allowed_colors_spec (c : string) :
  c ∈ allowed_colors <-> c = "green" ∨ c = "black" ∨ c = "yellow" ∨ c = "white".
Proof.
  unfold allowed_colors.
  rewrite !elem_of_union, !elem_of_singleton; tauto.
Qed.

Lemma check_items_ok (its : list CreateOrderItem.t) :
  check_items its = Ok tt <-> Forall item_ok its.
Proof.
  induction its as [|it rest IH]; simpl.
  - split; [constructor | reflexivity].
  - case_bool_decide as Hc; simpl.
    + destruct (Z.ltb_spec (CreateOrderItem.quantity it) 1) as [Hq|Hq].
      * split; [discriminate |].
        intros H; inversion H as [|? ? [_ Hq'] _]; subst; lia.
      * rewrite IH; split; intros H.
        -- constructor; [split; assumption | assumption].
        -- now inversion H.
    + split; [discriminate |].
      intros H; inversion H as [|? ? [Hc' _] _]; subst; contradiction.
Qed.

Lemma check_items_result (its : list CreateOrderItem.t) (u : unit) :
  check_items its = Ok u -> Forall item_ok its.
Proof. destruct u; apply check_items_ok. Qed.

Lemma check_items_app (pre : list CreateOrderItem.t) (rest : list CreateOrderItem.t) :
  Forall item_ok pre -> check_items (pre ++ rest) = check_items rest.
Proof.
  induction 1 as [|it pre [Hc Hq] _ IH]; simpl; [reflexivity |].
  rewrite bool_decide_true by assumption; simpl.
  destruct (Z.ltb_spec (CreateOrderItem.quantity it) 1); [lia | exact IH].
Qed.

Lemma check_items_bad_color (pre post : list CreateOrderItem.t) (it : CreateOrderItem.t) :
  Forall item_ok pre ->
  CreateOrderItem.color it ∉ allowed_colors ->
  check_items (pre ++ it :: post)
  = Raise (HTTPException 400 ("Invalid color: " +:+ CreateOrderItem.color it)).
Proof.
  intros Hpre Hc; rewrite check_items_app by assumption; simpl.
  now rewrite bool_decide_false by assumption.
Qed.

Lemma check_items_bad_quantity (pre post : list CreateOrderItem.t) (it : CreateOrderItem.t) :
  Forall item_ok pre ->
  CreateOrderItem.color it ∈ allowed_colors ->
  CreateOrderItem.quantity it < 1 ->
  check_items (pre ++ it :: post) = Raise (HTTPException 400 "Quantity must be >= 1").
Proof.
  intros Hpre Hc Hq; rewrite check_items_app by assumption; simpl.
  rewrite bool_decide_true by assumption; simpl.
  destruct (Z.ltb_spec (CreateOrderItem.quantity it) 1); [reflexivity | lia].
Qed.

(** The first loop raises nothing but its two rejections. *)
Lemma check_items_raises (its : list CreateOrderItem.t) (e : exn) :
  check_items its = Raise e ->
  e = HTTPException 400 "Quantity must be >= 1"
  ∨ ∃ c, e = HTTPException 400 ("Invalid color: " +:+ c).
Proof.
  induction its as [|it rest IH]; simpl; [discriminate |].
  case_bool_decide; simpl.
  - destruct (CreateOrderItem.quantity it <? 1); [intros [= <-]; now left | exact IH].
  - intros [= <-]; right; eauto.
Qed.

(** ** The identifiers of the request *)

Lemma filter_length_all {A : Type} (f : A -> bool) (l : list A) :
  length (List.filter f l) = length l <-> Forall (fun x => f x = true) l.
Proof.
  induction l as [|x l IH]; simpl.
  - split; [constructor | reflexivity].
  - pose proof (List.filter_length_le f l) as Hle.
    destruct (f x) eqn:Hx; simpl.
    + split; intros H.
      * constructor; [assumption | apply IH; lia].
      * inversion H; subst. f_equal. now apply IH.
    + split; intros H; [lia | inversion H; congruence].
Qed.

Lemma collect_ids_length (its : list CreateOrderItem.t) :
  length (collect_ids its) = length its
  <-> Forall (fun it => ObjectId.is_valid (CreateOrderItem.product_id it) = true) its.
Proof. unfold collect_ids; rewrite length_map; apply filter_length_all. Qed.

Lemma collect_ids_all_valid (its : list CreateOrderItem.t) :
  Forall (fun it => ObjectId.is_valid (CreateOrderItem.product_id it) = true) its ->
  collect_ids its = List.map (fun i => ObjectId.new (CreateOrderItem.product_id i)) its.
Proof.
  intros H; unfold collect_ids; f_equal.
  induction H as [|it its Hit _ IH]; simpl; [reflexivity |].
  now rewrite Hit, IH.
Qed.

(** ** The dictionary of the products found *)

Lemma build_products_map_lookup_gen (docs : list ProductDoc.t)
    (m : gmap string ProductDoc.t) (k : string) (p : ProductDoc.t) :
  fold_left (fun m doc => <[ObjectId.str (ProductDoc._id doc) := doc]> m) docs m !! k
  = Some p ->
  m !! k = Some p ∨ (p ∈ docs ∧ ObjectId.str (ProductDoc._id p) = k).
Proof.
  revert m; induction docs as [|d docs IH]; intros m; simpl; [auto |].
  intros H; apply IH in H as [H|[H1 H2]].
  - destruct (decide (ObjectId.str (ProductDoc._id d) = k)) as [E|E].
    + subst k; rewrite lookup_insert_eq in H; injection H as <-.
      right; split; [left | reflexivity].
    + rewrite lookup_insert_ne in H by assumption; now left.
  - right; split; [now right | assumption].
Qed.

(** A product found under a key is a document of the collection, its
    identifier prints as the key and is one of those asked for. *)
Lemma products_map_of_lookup (coll : list ProductDoc.t)
    (its : list CreateOrderItem.t) (k : string) (p : ProductDoc.t) :
  products_map_of coll its !! k = Some p ->
  p ∈ coll ∧ ObjectId.str (ProductDoc._id p) = k
  ∧ ProductDoc._id p ∈ collect_ids its.
Proof.
  unfold products_map_of, build_products_map; intros H.
  apply build_products_map_lookup_gen in H as [H|[H1 H2]].
  - rewrite lookup_empty in H; discriminate.
  - unfold find_id_in in H1.
    apply list_elem_of_In, List.filter_In in H1 as [H1 H3].
    apply bool_decide_eq_true in H3.
    split; [now apply list_elem_of_In | split; assumption].
Qed.

(** ** The second loop *)

Lemma PyLong_AsDouble_Ok (z : Z) (x : float) :
  PyLong_AsDouble z = Ok x -> x = Z2float z.
Proof.
  unfold PyLong_AsDouble; destruct (is_infinity (Z2float z)); [discriminate |].
  now intros [= <-].
Qed.

Lemma OrderItem_validate_Ok (x y : OrderItem.t) :
  OrderItem.validate x = Ok y -> y = x.
Proof.
  unfold OrderItem.validate.
  destruct (_ && _); [now intros [= <-] | discriminate].
Qed.

Lemma Order_validate_Ok (x y : Order.t) :
  Order.validate x = Ok y -> y = x.
Proof.
  unfold Order.validate.
  destruct (_ && _); [now intros [= <-] | discriminate].
Qed.

(** The constructor takes a title and a category that are [str], and then
    checks the constraints. *)
Lemma OrderItem_make_Ok (pid : string) (title category : value) (color : string)
    (q : Z) (unit : float) (text : option string) (fee line : float)
    (oi : OrderItem.t) :
  OrderItem.make pid title category color q unit text fee line = Ok oi ->
  ∃ ts cs, title = VStr ts ∧ category = VStr cs
    ∧ oi = OrderItem.mk pid ts cs color q unit text fee line
    ∧ OrderItem.validate oi = Ok oi.
Proof.
  unfold OrderItem.make.
  destruct title; try discriminate; destruct category; try discriminate.
  intros Hv; pose proof (OrderItem_validate_Ok _ _ Hv) as ->.
  eexists _, _; repeat split; assumption.
Qed.

Lemma add_item_Ok (pm : gmap string ProductDoc.t) (acc acc' : totals)
    (it : CreateOrderItem.t) :
  add_item pm acc it = Ok acc' ->
  ∃ oi, snapshot_of pm it oi
    ∧ order_items acc' = (order_items acc ++ [oi])%list
    ∧ sub_total acc' = (sub_total acc + unit_part oi)%float
    ∧ embroidery_total acc' = (embroidery_total acc + embroidery_part oi)%float.
Proof.
  unfold add_item.
  destruct (pm !! CreateOrderItem.product_id it) as [p|] eqn:Hp; [| discriminate].
  intros Hadd.
  apply bind_Ok in Hadd as (u & Hu & Hadd).
  apply bind_Ok in Hadd as (q & Hq & Hadd).
  apply bind_Ok in Hadd as (oi & Hoi & Hadd).
  apply PyLong_AsDouble_Ok in Hq; subst q.
  apply OrderItem_make_Ok in Hoi as (ts & cs & Ht & Hc & -> & _).
  injection Hadd as <-.
  eexists; split; [| simpl; repeat split; reflexivity].
  exists p; simpl; repeat split; try assumption; try reflexivity;
    symmetry; assumption.
Qed.

Lemma add_items_Ok (pm : gmap string ProductDoc.t)
    (its : list CreateOrderItem.t) (acc acc' : totals) :
  add_items pm acc its = Ok acc' ->
  ∃ ois, Forall2 (snapshot_of pm) its ois
    ∧ order_items acc' = (order_items acc ++ ois)%list
    ∧ sub_total acc'
      = fold_left PrimFloat.add (List.map unit_part ois) (sub_total acc)
    ∧ embroidery_total acc'
      = fold_left PrimFloat.add (List.map embroidery_part ois) (embroidery_total acc).
Proof.
  revert acc; induction its as [|it rest IH]; intros acc; simpl.
  - intros [= <-]; exists []; repeat split; [constructor | now rewrite app_nil_r].
  - intros H; apply bind_Ok in H as (acc1 & H1 & H).
    apply add_item_Ok in H1 as (oi & Hoi & Ho & Hs & He).
    apply IH in H as (ois & Hois & Ho' & Hs' & He').
    exists (oi :: ois); repeat split.
    + now constructor.
    + rewrite Ho', Ho, <- app_assoc; reflexivity.
    + simpl; rewrite Hs', Hs; reflexivity.
    + simpl; rewrite He', He; reflexivity.
Qed.

(** ** The endpoint as a whole *)

(** What a built order is made of. *)
Lemma build_order_Ok (coll : list ProductDoc.t) (payload : CreateOrder.t)
    (o : Order.t) (g : float) :
  build_order coll payload = Ok (o, g) ->
  Forall item_ok (CreateOrder.items payload)
  ∧ Forall (fun it => ObjectId.is_valid (CreateOrderItem.product_id it) = true)
      (CreateOrder.items payload)
  ∧ size (products_map_of coll (CreateOrder.items payload))
    = length (CreateOrder.items payload)
  ∧ Forall2 (snapshot_of (products_map_of coll (CreateOrder.items payload)))
      (CreateOrder.items payload) (Order.items o)
  ∧ Order.customer_name o = CreateOrder.customer_name payload
  ∧ Order.customer_email o = CreateOrder.customer_email payload
  ∧ Order.notes o = CreateOrder.notes payload
  ∧ Order.sub_total o = fsum (List.map unit_part (Order.items o))
  ∧ Order.embroidery_total o = fsum (List.map embroidery_part (Order.items o))
  ∧ Order.grand_total o = (Order.sub_total o + Order.embroidery_total o)%float
  ∧ g = Order.grand_total o.
Proof.
  unfold build_order; intros H.
  apply bind_Ok in H as (u & Hchk & H).
  apply check_items_result in Hchk.
  destruct (Nat.eqb_spec (length (collect_ids (CreateOrder.items payload)))
              (length (CreateOrder.items payload))) as [Hlen|]; [| discriminate].
  simpl in H.
  fold (products_map_of coll (CreateOrder.items payload)) in H.
  destruct (Nat.eqb_spec (size (products_map_of coll (CreateOrder.items payload)))
              (length (CreateOrder.items payload))) as [Hsize|]; [| discriminate].
  simpl in H.
  apply bind_Ok in H as (acc & Hacc & H).
  apply bind_Ok in H as (o' & Ho & H).
  injection H as -> <-.
  apply Order_validate_Ok in Ho; subst o.
  apply add_items_Ok in Hacc as (ois & Hois & Hitems & Hs & He); simpl in *.
  subst; rewrite Hs, He.
  apply collect_ids_length in Hlen.
  repeat split; assumption || reflexivity.
Qed.

Section EndpointFacts.

Variable new_id : list (string * Order.t) -> string.

(** A 201 response: the order was built, and stored last in the collection
    under the identifier returned. *)
Lemma create_order_Ok (st st' : Store) (payload : CreateOrder.t) (r : Created) :
  create_order new_id st payload = (Ok r, st') ->
  ∃ o, build_order (merchandiseproduct st) payload = Ok (o, grand_total r)
    ∧ id r = new_id (order st)
    ∧ merchandiseproduct st' = merchandiseproduct st
    ∧ order st' = (order st ++ [(id r, o)])%list.
Proof.
  unfold create_order.
  destruct (build_order (merchandiseproduct st) payload) as [[o g]|e] eqn:Hb;
    simpl; [| discriminate].
  intros [= <- <-]; exists o; simpl; repeat split; reflexivity.
Qed.

(** Any exception leaves the store as it was. *)
Lemma create_order_Raise (st st' : Store) (payload : CreateOrder.t) (e : exn) :
  create_order new_id st payload = (Raise e, st') ->
  build_order (merchandiseproduct st) payload = Raise e ∧ st' = st.
Proof.
  unfold create_order.
  destruct (build_order (merchandiseproduct st) payload) as [[o g]|e'] eqn:Hb; simpl.
  - discriminate.
  - intros [= <- <-]; split; reflexivity.
Qed.

End EndpointFacts.

(** ** Documents the endpoint cannot tell apart

    The endpoint reads four things of a product document: its [_id], its
    title and category with their defaults, and its price. A change of the
    documents that keeps the four changes nothing of the order built. *)
Section SameFields.

Variable f : ProductDoc.t -> ProductDoc.t.
Hypothesis f_id : ∀ p, ProductDoc._id (f p) = ProductDoc._id p.
Hypothesis f_title : ∀ p,
  default (VStr EmptyString) (ProductDoc.title (f p))
  = default (VStr EmptyString) (ProductDoc.title p).
Hypothesis f_category : ∀ p,
  default (VStr EmptyString) (ProductDoc.category (f p))
  = default (VStr EmptyString) (ProductDoc.category p).
Hypothesis f_price : ∀ p, unit_price_of (f p) = unit_price_of p.

Lemma find_id_in_map (coll : list ProductDoc.t) (ids : list ObjectId.t) :
  find_id_in (List.map f coll) ids = List.map f (find_id_in coll ids).
Proof.
  unfold find_id_in; induction coll as [|d coll IH]; simpl; [reflexivity |].
  rewrite f_id, IH.
  destruct (bool_decide (ProductDoc._id d ∈ ids)); reflexivity.
Qed.

Lemma build_products_map_map_gen (docs : list ProductDoc.t)
    (m : gmap string ProductDoc.t) :
  fold_left (fun m doc => <[ObjectId.str (ProductDoc._id doc) := doc]> m)
    (List.map f docs) (f <$> m)
  = f <$> fold_left (fun m doc => <[ObjectId.str (ProductDoc._id doc) := doc]> m)
            docs m.
Proof.
  revert m; induction docs as [|d docs IH]; intros m; simpl; [reflexivity |].
  rewrite f_id, <- fmap_insert; apply IH.
Qed.

Lemma products_map_of_map (coll : list ProductDoc.t) (its : list CreateOrderItem.t) :
  products_map_of (List.map f coll) its = f <$> products_map_of coll its.
Proof.
  unfold products_map_of, build_products_map.
  rewrite find_id_in_map, <- build_products_map_map_gen, fmap_empty; reflexivity.
Qed.

Lemma add_item_map (pm : gmap string ProductDoc.t) (acc : totals)
    (it : CreateOrderItem.t) :
  add_item (f <$> pm) acc it = add_item pm acc it.
Proof.
  unfold add_item; rewrite lookup_fmap.
  destruct (pm !! CreateOrderItem.product_id it) as [p|]; simpl; [| reflexivity].
  rewrite f_price, f_title, f_category; reflexivity.
Qed.

Lemma add_items_map (pm : gmap string ProductDoc.t)
    (its : list CreateOrderItem.t) (acc : totals) :
  add_items (f <$> pm) acc its = add_items pm acc its.
Proof.
  revert acc; induction its as [|it rest IH]; intros acc; simpl; [reflexivity |].
  rewrite add_item_map.
  destruct (add_item pm acc it); simpl; [apply IH | reflexivity].
Qed.

Lemma build_order_map (coll : list ProductDoc.t) (payload : CreateOrder.t) :
  build_order (List.map f coll) payload = build_order coll payload.
Proof.
  unfold build_order.
  destruct (check_items (CreateOrder.items payload)); simpl; [| reflexivity].
  destruct (negb _); [reflexivity |].
  fold (products_map_of (List.map f coll) (CreateOrder.items payload)).
  fold (products_map_of coll (CreateOrder.items payload)).
  rewrite products_map_of_map, map_size_fmap, add_items_map; reflexivity.
Qed.

End SameFields.

Lemma build_order_with_colors (cs : list string) (coll : list ProductDoc.t)
    (payload : CreateOrder.t) :
  build_order (List.map (with_colors cs) coll) payload = build_order coll payload.
Proof. apply build_order_map; intros p; reflexivity. Qed.

Lemma build_order_with_explicit_price (coll : list ProductDoc.t)
    (payload : CreateOrder.t) :
  build_order (List.map with_explicit_price coll) payload = build_order coll payload.
Proof.
  apply build_order_map; intros p; try reflexivity.
  unfold unit_price_of; simpl; destruct (ProductDoc.base_price p); reflexivity.
Qed.

Lemma same_but_colors_erase (l1 l2 : list ProductDoc.t) :
  Forall2 same_but_colors l1 l2 ->
  List.map (with_colors []) l1 = List.map (with_colors []) l2.
Proof.
  induction 1 as [|p q l1 l2 (Hi & Ht & Hc & Hb) _ IH]; simpl; [reflexivity |].
  rewrite IH; f_equal.
  unfold with_colors; now rewrite Hi, Ht, Hc, Hb.
Qed.

Lemma build_order_same_but_colors (l1 l2 : list ProductDoc.t)
    (payload : CreateOrder.t) :
  Forall2 same_but_colors l1 l2 ->
  build_order l1 payload = build_order l2 payload.
Proof.
  intros H.
  rewrite <- (build_order_with_colors [] l1), <- (build_order_with_colors [] l2).
  now rewrite (same_but_colors_erase l1 l2 H).
Qed.

(** ** What the endpoint raises

    The second loop and the two constructors raise no [HTTPException]; the
    four rejections come from the checks before them. *)

Lemma PyLong_AsDouble_raises (z : Z) (e : exn) :
  PyLong_AsDouble z = Raise e -> e = OverflowError.
Proof.
  unfold PyLong_AsDouble; destruct (is_infinity _); [| discriminate].
  now intros [= <-].
Qed.

Lemma py_float_raises (v : value) (e : exn) :
  py_float v = Raise e -> e = OverflowError ∨ e = TypeError ∨ e = ValueError.
Proof.
  destruct v; simpl; try discriminate; try (intros [= <-]; now auto).
  - intros Hz; apply PyLong_AsDouble_raises in Hz; now left.
  - destruct (float_of_str s); [discriminate | intros [= <-]; now auto].
Qed.

Lemma OrderItem_make_raises (pid : string) (title category : value)
    (color : string) (q : Z) (unit : float) (text : option string)
    (fee line : float) (e : exn) :
  OrderItem.make pid title category color q unit text fee line = Raise e ->
  e = ValidationError "OrderItem".
Proof.
  unfold OrderItem.make, OrderItem.validate.
  destruct title; try (now intros [= <-]);
    destruct category; try (now intros [= <-]).
  destruct (_ && _); [discriminate | now intros [= <-]].
Qed.

(** What one turn of the second loop can raise. *)
Lemma add_item_raises (pm : gmap string ProductDoc.t) (acc : totals)
    (it : CreateOrderItem.t) (e : exn) :
  add_item pm acc it = Raise e ->
  (pm !! CreateOrderItem.product_id it = None
   ∧ e = KeyError (CreateOrderItem.product_id it))
  ∨ e = OverflowError ∨ e = TypeError ∨ e = ValueError
  ∨ e = ValidationError "OrderItem".
Proof.
  unfold add_item.
  destruct (pm !! CreateOrderItem.product_id it) as [p|];
    [| intros [= <-]; now left].
  intros Hadd; right.
  apply bind_Raise in Hadd as [Hu|(u & _ & Hadd)].
  { apply py_float_raises in Hu as [->|[->| ->]]; auto. }
  apply bind_Raise in Hadd as [Hq|(q & _ & Hadd)].
  { apply PyLong_AsDouble_raises in Hq as ->; auto. }
  apply bind_Raise in Hadd as [Hoi|(oi & _ & Hadd)]; [| discriminate].
  apply OrderItem_make_raises in Hoi as ->; auto.
Qed.

Lemma add_item_not_http (pm : gmap string ProductDoc.t) (acc : totals)
    (it : CreateOrderItem.t) (e : exn) :
  add_item pm acc it = Raise e -> ¬ is_http e.
Proof.
  intros Hadd; apply add_item_raises in Hadd
    as [[_ ->]|[->|[->|[->| ->]]]]; simpl; tauto.
Qed.

Lemma add_items_not_http (pm : gmap string ProductDoc.t)
    (its : list CreateOrderItem.t) (acc : totals) (e : exn) :
  add_items pm acc its = Raise e -> ¬ is_http e.
Proof.
  revert acc; induction its as [|it rest IH]; intros acc; simpl; [discriminate |].
  intros H; apply bind_Raise in H as [H|(acc' & _ & H)].
  - now apply add_item_not_http in H.
  - now apply IH in H.
Qed.

Lemma build_order_http (coll : list ProductDoc.t) (payload : CreateOrder.t)
    (status : Z) (detail : string) :
  build_order coll payload = Raise (HTTPException status detail) ->
  status = 400
  ∧ ((∃ c, detail = "Invalid color: " +:+ c)
     ∨ detail = "Quantity must be >= 1"
     ∨ detail = "Invalid product id"
     ∨ detail = "One or more products not found").
Proof.
  unfold build_order; intros H.
  apply bind_Raise in H as [H|(u & _ & H)].
  { apply check_items_raises in H as [[= -> ->]|(c & [= -> ->])]; eauto 6. }
  destruct (negb _); [injection H as <- <-; auto |].
  destruct (negb _); [injection H as <- <-; auto 6 |].
  apply bind_Raise in H as [H|(acc & _ & H)].
  { apply add_items_not_http in H; exfalso; apply H; exact I. }
  apply bind_Raise in H as [H|(o & _ & H)]; [| discriminate].
  unfold Order.validate in H; destruct (_ && _); discriminate.
Qed.

Lemma build_order_bad_color (coll : list ProductDoc.t) (payload : CreateOrder.t)
    (pre post : list CreateOrderItem.t) (it : CreateOrderItem.t) :
  CreateOrder.items payload = (pre ++ it :: post)%list ->
  Forall item_ok pre ->
  CreateOrderItem.color it ∉ allowed_colors ->
  build_order coll payload
  = Raise (HTTPException 400 ("Invalid color: " +:+ CreateOrderItem.color it)).
Proof.
  intros Hits Hpre Hc; unfold build_order.
  now rewrite Hits, check_items_bad_color.
Qed.

Lemma build_order_bad_quantity (coll : list ProductDoc.t) (payload : CreateOrder.t)
    (pre post : list CreateOrderItem.t) (it : CreateOrderItem.t) :
  CreateOrder.items payload = (pre ++ it :: post)%list ->
  Forall item_ok pre ->
  CreateOrderItem.color it ∈ allowed_colors ->
  CreateOrderItem.quantity it < 1 ->
  build_order coll payload = Raise (HTTPException 400 "Quantity must be >= 1").
Proof.
  intros Hits Hpre Hc Hq; unfold build_order.
  now rewrite Hits, check_items_bad_quantity.
Qed.

Lemma build_order_bad_id (coll : list ProductDoc.t) (payload : CreateOrder.t) :
  Forall item_ok (CreateOrder.items payload) ->
  Exists (fun it => ObjectId.is_valid (CreateOrderItem.product_id it) = false)
    (CreateOrder.items payload) ->
  build_order coll payload = Raise (HTTPException 400 "Invalid product id").
Proof.
  intros Hok Hex; unfold build_order.
  apply check_items_ok in Hok; rewrite Hok; simpl.
  destruct (Nat.eqb_spec (length (collect_ids (CreateOrder.items payload)))
              (length (CreateOrder.items payload))) as [Hlen|]; [| reflexivity].
  apply collect_ids_length in Hlen.
  apply Exists_exists in Hex as (it & Hin & Hit).
  rewrite Forall_forall in Hlen; apply Hlen in Hin; congruence.
Qed.

Lemma build_order_not_found (coll : list ProductDoc.t) (payload : CreateOrder.t) :
  Forall item_ok (CreateOrder.items payload) ->
  Forall (fun it => ObjectId.is_valid (CreateOrderItem.product_id it) = true)
    (CreateOrder.items payload) ->
  size (products_map_of coll (CreateOrder.items payload))
  ≠ length (CreateOrder.items payload) ->
  build_order coll payload
  = Raise (HTTPException 400 "One or more products not found").
Proof.
  intros Hok Hvalid Hsize; unfold build_order.
  apply check_items_ok in Hok; rewrite Hok; simpl.
  apply collect_ids_length in Hvalid; rewrite Hvalid, Nat.eqb_refl; simpl.
  fold (products_map_of coll (CreateOrder.items payload)).
  apply Nat.eqb_neq in Hsize; now rewrite Hsize.
Qed.

(** ** Requests that name a product twice *)

Lemma size_list_to_set_le (l : list string) :
  (size (list_to_set l : gset string) <= length l)%nat.
Proof.
  induction l as [|x l IH]; simpl; [reflexivity |].
  rewrite size_union_alt, size_singleton.
  assert (size (list_to_set l ∖ {[x]} : gset string)
          <= size (list_to_set l : gset string))%nat as Hsub.
  { apply subseteq_size; intros y Hy.
    now apply elem_of_difference in Hy as [Hy _]. }
  lia.
Qed.

Lemma size_list_to_set_full (l : list string) :
  size (list_to_set l : gset string) = length l -> NoDup l.
Proof.
  induction l as [|x l IH]; simpl; [constructor |].
  pose proof (size_list_to_set_le l) as Hle.
  intros H; destruct (decide (x ∈ l)) as [Hin|Hin].
  - exfalso.
    assert (({[x]} ∪ list_to_set l : gset string) = list_to_set l) as Hsame.
    { apply subseteq_union_1_L; intros y Hy.
      apply elem_of_singleton in Hy as ->; now apply elem_of_list_to_set. }
    rewrite Hsame in H; lia.
  - constructor; [assumption |].
    apply IH.
    rewrite size_union, size_singleton in H
      by (apply disjoint_singleton_l; now rewrite elem_of_list_to_set).
    lia.
Qed.

Lemma products_map_of_dom (coll : list ProductDoc.t) (its : list CreateOrderItem.t) :
  dom (products_map_of coll its) ⊆ (list_to_set (requested_keys its) : gset string).
Proof.
  intros k Hk; apply elem_of_dom in Hk as [p Hp].
  apply products_map_of_lookup in Hp as (_ & Hstr & Hid).
  apply elem_of_list_to_set, list_elem_of_In.
  unfold collect_ids in Hid.
  apply list_elem_of_In, List.in_map_iff in Hid as (it & Hit & Hin).
  apply List.filter_In in Hin as [Hin _].
  unfold requested_keys; apply List.in_map_iff.
  exists it; split; [| assumption].
  now rewrite Hit, Hstr.
Qed.

Lemma products_map_of_size (coll : list ProductDoc.t) (its : list CreateOrderItem.t) :
  size (products_map_of coll its) = length its ->
  NoDup (List.map CreateOrderItem.product_id its).
Proof.
  intros Hsize.
  pose proof (subseteq_size _ _ (products_map_of_dom coll its)) as Hdom.
  rewrite size_dom in Hdom.
  pose proof (size_list_to_set_le (requested_keys its)) as Hle.
  assert (Hlen : length (requested_keys its) = length its)
    by (unfold requested_keys; apply length_map).
  assert (Hnd : NoDup (requested_keys its))
    by (apply size_list_to_set_full; lia).
  unfold requested_keys in Hnd.
  rewrite <- (List.map_map CreateOrderItem.product_id
                (fun s => ObjectId.str (ObjectId.new s))) in Hnd.
  exact (NoDup_fmap_1 _ _ Hnd).
Qed.

(** An order is only ever built for a request whose items name pairwise
    different products. *)
Lemma build_order_distinct_products (coll : list ProductDoc.t)
    (payload : CreateOrder.t) (o : Order.t) (g : float) :
  build_order coll payload = Ok (o, g) ->
  NoDup (List.map CreateOrderItem.product_id (CreateOrder.items payload)).
Proof.
  intros H; apply build_order_Ok in H as (_ & _ & Hsize & _).
  now apply products_map_of_size in Hsize.
Qed.

(** A request that names a product twice and passes the checks of colors,
    quantities and identifiers is rejected as if a product were missing. *)
Lemma create_order_same_product_twice
    (new_id : list (string * Order.t) -> string) (st : Store)
    (payload : CreateOrder.t) (i j : nat) (it1 it2 : CreateOrderItem.t) :
  i ≠ j ->
  CreateOrder.items payload !! i = Some it1 ->
  CreateOrder.items payload !! j = Some it2 ->
  CreateOrderItem.product_id it1 = CreateOrderItem.product_id it2 ->
  Forall item_ok (CreateOrder.items payload) ->
  Forall (fun it => ObjectId.is_valid (CreateOrderItem.product_id it) = true)
    (CreateOrder.items payload) ->
  create_order new_id st payload
  = (Raise (HTTPException 400 "One or more products not found"), st).
Proof.
  intros Hij Hi Hj Hsame Hok Hvalid; unfold create_order.
  rewrite build_order_not_found; [reflexivity | assumption | assumption |].
  intros Hsize; apply products_map_of_size in Hsize.
  apply Hij; eapply NoDup_lookup; [exact Hsize | |].
  - rewrite list_lookup_fmap, Hi; reflexivity.
  - rewrite list_lookup_fmap, Hj, Hsame; reflexivity.
Qed.

Lemma Forall2_right {A B : Type} (P : A -> B -> Prop) (Q : B -> Prop)
    (l : list A) (k : list B) :
  (∀ x y, P x y -> Q y) -> Forall2 P l k -> Forall Q k.
Proof. intros HPQ; induction 1; constructor; eauto. Qed.

(** Opens the hypothesis of a 201 response into the order stored and the
    facts about how it was built. *)
Ltac open_created H o :=
  let Hbuild := fresh "Hbuild" in
  apply create_order_Ok in H
    as (o & Hbuild & Hid & Hcoll & Hstored);
  apply build_order_Ok in Hbuild
    as (Hok & Hvalid & Hsize & Hitems & Hname & Hemail & Hnotes
        & Hsub & Hemb & Hgrand & Hresp).

(** ** Properties of the orders created *)

Section Claims.

Variable new_id : list (string * Order.t) -> string.

(** C2. The order stored by a successful [create_order] has
    [sub_total] equal to the sum over its items of
    [unit_price * quantity], [embroidery_total] equal to the sum over its
    items of [embroidery_fee * quantity], and [grand_total] equal to
    [sub_total + embroidery_total]. The sums are float sums taken from 0.0 in
    the order of the items. *)
Theorem order_totals_are_sums (st st' : Store) (payload : CreateOrder.t)
    (r : Created) :
  create_order new_id st payload = (Ok r, st') ->
  ∃ o, order st' = (order st ++ [(id r, o)])%list
    ∧ Order.sub_total o
      = fsum (List.map (fun oi => (OrderItem.unit_price oi
                                   * Z2float (OrderItem.quantity oi))%float)
                (Order.items o))
    ∧ Order.embroidery_total o
      = fsum (List.map (fun oi => (OrderItem.embroidery_fee oi
                                   * Z2float (OrderItem.quantity oi))%float)
                (Order.items o))
    ∧ Order.grand_total o = (Order.sub_total o + Order.embroidery_total o)%float.
Proof.
  intros H; open_created H o.
  exists o; repeat split; assumption.
Qed.

(** C3. Every item of the order stored by a successful [create_order]
    has [embroidery_fee] 8.0 when its [embroidery_text] is present and not
    blank once trimmed, and 0.0 when the text is absent or blank once
    trimmed. *)
Theorem embroidery_fee_follows_text (st st' : Store) (payload : CreateOrder.t)
    (r : Created) :
  create_order new_id st payload = (Ok r, st') ->
  ∃ o, order st' = (order st ++ [(id r, o)])%list
    ∧ Forall (fun oi =>
        (nonblank (OrderItem.embroidery_text oi)
         -> OrderItem.embroidery_fee oi = 8%float)
        ∧ (blank_or_absent (OrderItem.embroidery_text oi)
           -> OrderItem.embroidery_fee oi = 0%float))
        (Order.items o).
Proof.
  intros H; open_created H o.
  exists o; split; [assumption |].
  eapply Forall2_right; [| exact Hitems].
  intros it oi (p & _ & _ & _ & _ & _ & _ & Htext & _ & Hfee & _).
  rewrite Hfee, Htext; split; intros Ht.
  - apply wants_embroidery_nonblank in Ht; now rewrite Ht.
  - apply wants_embroidery_blank in Ht; now rewrite Ht.
Qed.

(** C4. Every item of the order stored by a successful [create_order]
    was priced from the product that the item's [product_id] resolved to,
    a document of the collection as it was when the request came:
    [unit_price] is that product's [base_price] (converted to a [float]
    where the document holds an [int]), and [line_total] is
    [(unit_price + embroidery_fee) * quantity]. *)
Theorem unit_price_and_line_total (st st' : Store) (payload : CreateOrder.t)
    (r : Created) :
  create_order new_id st payload = (Ok r, st') ->
  ∃ o, order st' = (order st ++ [(id r, o)])%list
    ∧ Forall2 (fun it oi =>
        (∃ p, products_map_of (merchandiseproduct st) (CreateOrder.items payload)
                !! CreateOrderItem.product_id it = Some p
           ∧ p ∈ merchandiseproduct st
           ∧ ObjectId.str (ProductDoc._id p) = CreateOrderItem.product_id it
           ∧ (∀ b, ProductDoc.base_price p = Some (VFloat b) ->
                   OrderItem.unit_price oi = b)
           ∧ (∀ z, ProductDoc.base_price p = Some (VInt z) ->
                   OrderItem.unit_price oi = Z2float z))
        ∧ OrderItem.line_total oi
          = ((OrderItem.unit_price oi + OrderItem.embroidery_fee oi)
             * Z2float (OrderItem.quantity oi))%float)
        (CreateOrder.items payload) (Order.items o).
Proof.
  intros H; open_created H o.
  exists o; split; [assumption |].
  eapply Forall2_impl; [exact Hitems |].
  intros it oi (p & Hp & _ & _ & _ & _ & _ & _ & Hunit & _ & Hline).
  split; [| exact Hline].
  exists p; destruct (products_map_of_lookup _ _ _ _ Hp) as (Hin & Hstr & _).
  unfold unit_price_of in Hunit.
  repeat split; try assumption.
  - intros b Hb; rewrite Hb in Hunit; simpl in Hunit; congruence.
  - intros z Hz; rewrite Hz in Hunit; simpl in Hunit.
    exact (PyLong_AsDouble_Ok _ _ Hunit).
Qed.

(** C7. The order stored by a successful [create_order] has one item
    per item of the request, in the order of the request; each carries the
    title and the category of the product its [product_id] resolved to (the
    empty string where the document has none), and the [product_id],
    [color], [quantity] and [embroidery_text] of the request unchanged. *)
Theorem items_follow_request (st st' : Store) (payload : CreateOrder.t)
    (r : Created) :
  create_order new_id st payload = (Ok r, st') ->
  ∃ o, order st' = (order st ++ [(id r, o)])%list
    ∧ length (Order.items o) = length (CreateOrder.items payload)
    ∧ Forall2 (fun it oi =>
        (∃ p, products_map_of (merchandiseproduct st) (CreateOrder.items payload)
                !! CreateOrderItem.product_id it = Some p
           ∧ p ∈ merchandiseproduct st
           ∧ ObjectId.str (ProductDoc._id p) = CreateOrderItem.product_id it
           ∧ VStr (OrderItem.title oi)
             = default (VStr EmptyString) (ProductDoc.title p)
           ∧ VStr (OrderItem.category oi)
             = default (VStr EmptyString) (ProductDoc.category p))
        ∧ OrderItem.product_id oi = CreateOrderItem.product_id it
        ∧ OrderItem.color oi = CreateOrderItem.color it
        ∧ OrderItem.quantity oi = CreateOrderItem.quantity it
        ∧ OrderItem.embroidery_text oi = CreateOrderItem.embroidery_text it)
        (CreateOrder.items payload) (Order.items o).
Proof.
  intros H; open_created H o.
  exists o; split; [assumption |].
  split; [symmetry; eapply Forall2_length; exact Hitems |].
  eapply Forall2_impl; [exact Hitems |].
  intros it oi (p & Hp & Hpid & Htitle & Hcat & Hcolor & Hq & Htext & _).
  destruct (products_map_of_lookup _ _ _ _ Hp) as (Hin & Hstr & _).
  split; [exists p |]; repeat split; assumption.
Qed.

(** C6. Whenever [create_order] raises, whatever the exception, the
    store it leaves is the store it found: no order document is persisted. *)
Theorem rejection_persists_nothing (st st' : Store) (payload : CreateOrder.t)
    (e : exn) :
  create_order new_id st payload = (Raise e, st') -> st' = st.
Proof. intros H; now apply create_order_Raise in H. Qed.

(** C9. A request with no items is not rejected: the response is a
    201 with [grand_total] 0.0, and the order stored has no items and
    [sub_total], [embroidery_total] and [grand_total] all 0.0. *)
Theorem empty_order_is_created (st : Store) (name email : string)
    (notes : option string) :
  let payload :=
    {| CreateOrder.customer_name := name; CreateOrder.customer_email := email;
       CreateOrder.items := []; CreateOrder.notes := notes |} in
  let order_id := new_id (order st) in
  create_order new_id st payload
  = (Ok {| id := order_id; grand_total := 0%float |},
     {| merchandiseproduct := merchandiseproduct st;
        order := order st
          ++ [(order_id,
               {| Order.customer_name := name; Order.customer_email := email;
                  Order.items := []; Order.sub_total := 0%float;
                  Order.embroidery_total := 0%float;
                  Order.grand_total := 0%float; Order.notes := notes |})] |})
  ∧ status_of (fst (create_order new_id st payload)) = 201.
Proof.
  assert (Hfind : find_id_in (merchandiseproduct st) [] = []).
  { unfold find_id_in; induction (merchandiseproduct st) as [|d l IH]; simpl;
      [reflexivity |].
    exact IH. }
  cbv zeta; unfold create_order, build_order; simpl.
  unfold collect_ids; simpl; rewrite Hfind; simpl.
  split; reflexivity.
Qed.

(** C5. [create_order] answers 400 with a message that names the
    first check that fails. Going through the items in order, the first
    item with a color off the palette or a quantity below 1 decides:
    "Invalid color: <value>" for the color, "Quantity must be >= 1" for the
    quantity. When every item passes, "Invalid product id" if some
    [product_id] is not a valid identifier, and "One or more products not
    found" if as many identifiers are valid as there are items but the
    products found are not as many. These are the only rejections with a
    status of their own, each with status 400 and an unchanged store. A
    request that succeeds is answered 201 with the identifier under which
    the order was stored and that order's [grand_total]. *)
Theorem rejections_and_response (st : Store) (payload : CreateOrder.t) :
  let its := CreateOrder.items payload in
  let rejected detail :=
    create_order new_id st payload = (Raise (HTTPException 400 detail), st) in
  (∀ pre it post, its = (pre ++ it :: post)%list -> Forall item_ok pre ->
     CreateOrderItem.color it ∉ allowed_colors ->
     rejected ("Invalid color: " +:+ CreateOrderItem.color it))
  ∧ (∀ pre it post, its = (pre ++ it :: post)%list -> Forall item_ok pre ->
       CreateOrderItem.color it ∈ allowed_colors ->
       CreateOrderItem.quantity it < 1 ->
       rejected "Quantity must be >= 1")
  ∧ (Forall item_ok its ->
     Exists (fun it => ObjectId.is_valid (CreateOrderItem.product_id it) = false) its ->
     rejected "Invalid product id")
  ∧ (Forall item_ok its ->
     Forall (fun it => ObjectId.is_valid (CreateOrderItem.product_id it) = true) its ->
     size (products_map_of (merchandiseproduct st) its) ≠ length its ->
     rejected "One or more products not found")
  ∧ (∀ status detail st',
       create_order new_id st payload = (Raise (HTTPException status detail), st') ->
       status = 400
       ∧ ((∃ c, detail = "Invalid color: " +:+ c)
          ∨ detail = "Quantity must be >= 1"
          ∨ detail = "Invalid product id"
          ∨ detail = "One or more products not found"))
  ∧ (∀ r st', create_order new_id st payload = (Ok r, st') ->
       status_of (Ok r) = 201
       ∧ ∃ o, order st' = (order st ++ [(id r, o)])%list
           ∧ grand_total r = Order.grand_total o).
Proof.
  cbv zeta; repeat apply conj.
  - intros pre it post Hits Hpre Hc; unfold create_order.
    now rewrite (build_order_bad_color _ _ pre post it).
  - intros pre it post Hits Hpre Hc Hq; unfold create_order.
    now rewrite (build_order_bad_quantity _ _ pre post it).
  - intros Hok Hex; unfold create_order.
    now rewrite build_order_bad_id.
  - intros Hok Hvalid Hsize; unfold create_order.
    now rewrite build_order_not_found.
  - intros status detail st' H.
    apply create_order_Raise in H as [H _].
    now apply build_order_http in H.
  - intros r st' H; split; [reflexivity |].
    open_created H o; exists o; split; assumption.
Qed.

(** C8. The products' declared [colors] play no part in
    [create_order]: from two stores whose product documents differ at most
    in their [colors] and whose orders are the same, the same request gets
    the same response (the same acceptance or the same exception, with the
    same message and the same totals) and leaves the same orders. The same
    holds when every product is made to declare no color at all, so that no
    item's color is among its product's. *)
Theorem product_colors_do_not_matter (st1 st2 : Store) (payload : CreateOrder.t) :
  Forall2 same_but_colors (merchandiseproduct st1) (merchandiseproduct st2) ->
  order st1 = order st2 ->
  (fst (create_order new_id st1 payload) = fst (create_order new_id st2 payload)
   ∧ order (snd (create_order new_id st1 payload))
     = order (snd (create_order new_id st2 payload)))
  ∧ (let bare :=
       {| merchandiseproduct := List.map (with_colors []) (merchandiseproduct st1);
          order := order st1 |} in
     fst (create_order new_id bare payload) = fst (create_order new_id st1 payload)
     ∧ order (snd (create_order new_id bare payload))
       = order (snd (create_order new_id st1 payload))).
Proof.
  intros Hprod Hord; unfold create_order; simpl.
  rewrite build_order_with_colors.
  rewrite (build_order_same_but_colors _ _ payload Hprod).
  destruct (build_order (merchandiseproduct st2) payload) as [[o g]|e]; simpl;
    rewrite ?Hord; repeat split; reflexivity.
Qed.

(** C10. A product document with no [base_price] does not make
    [create_order] fail: its price is read as 0.0, and the request is
    answered exactly as if the document said 0.0. In the order stored, an
    item of such a product has [unit_price] 0.0 and a [line_total] of its
    [embroidery_fee * quantity] alone. *)
Theorem missing_base_price_is_zero (st : Store) (payload : CreateOrder.t) :
  (∀ p, ProductDoc.base_price p = None -> unit_price_of p = Ok 0%float)
  ∧ (let explicit :=
       {| merchandiseproduct :=
            List.map with_explicit_price (merchandiseproduct st);
          order := order st |} in
     fst (create_order new_id st payload) = fst (create_order new_id explicit payload)
     ∧ order (snd (create_order new_id st payload))
       = order (snd (create_order new_id explicit payload)))
  ∧ (∀ r st', create_order new_id st payload = (Ok r, st') ->
       ∃ o, order st' = (order st ++ [(id r, o)])%list
         ∧ Forall2 (fun it oi =>
             ∀ p, products_map_of (merchandiseproduct st) (CreateOrder.items payload)
                    !! CreateOrderItem.product_id it = Some p ->
                  ProductDoc.base_price p = None ->
                  OrderItem.unit_price oi = 0%float
                  ∧ OrderItem.line_total oi
                    = (OrderItem.embroidery_fee oi
                       * Z2float (OrderItem.quantity oi))%float)
             (CreateOrder.items payload) (Order.items o)).
Proof.
  repeat apply conj.
  - intros p Hp; unfold unit_price_of; rewrite Hp; reflexivity.
  - unfold create_order; simpl; rewrite build_order_with_explicit_price.
    destruct (build_order (merchandiseproduct st) payload) as [[o g]|e]; simpl;
      reflexivity.
  - unfold create_order; simpl; rewrite build_order_with_explicit_price.
    destruct (build_order (merchandiseproduct st) payload) as [[o g]|e]; simpl;
      reflexivity.
  - intros r st' H; open_created H o; exists o; split; [assumption |].
    eapply Forall2_impl; [exact Hitems |].
    intros it oi (p & Hp & _ & _ & _ & _ & _ & _ & Hunit & Hfee & Hline) p' Hp' Hnone.
    rewrite Hp in Hp'; injection Hp' as <-.
    assert (Hzero : OrderItem.unit_price oi = 0%float).
    { unfold unit_price_of in Hunit; rewrite Hnone in Hunit.
      simpl in Hunit; apply PyLong_AsDouble_Ok in Hunit; exact Hunit. }
    split; [exact Hzero |].
    rewrite Hline, Hzero, Hfee.
    destruct (wants_embroidery _); reflexivity.
Qed.

End Claims.

(** * Further properties of the endpoints *)

(** ** Identifiers, parsed and printed back *)

Lemma hex_value_bound (c : ascii) (x : N) :
  ObjectId.hex_value c = Some x -> (x < 16)%N.
Proof.
  unfold ObjectId.hex_value.
  repeat match goal with
         | |- context [(?a <=? ?b)%N] => destruct (N.leb_spec a b)
         end; simpl; intros [= <-]; lia.
Qed.

Lemma hex_value_hex_digit (x : N) :
  (x < 16)%N -> ObjectId.hex_value (ObjectId.hex_digit x) = Some x.
Proof.
  intros Hx.
  assert (Hcases : x ∈ List.map N.of_nat (seq 0 16)).
  { apply list_elem_of_In, List.in_map_iff; exists (N.to_nat x); split; [lia |].
    apply List.in_seq; lia. }
  simpl in Hcases.
  repeat (apply elem_of_cons in Hcases as [->|Hcases]; [reflexivity |]).
  now apply elem_of_nil in Hcases.
Qed.

Lemma hex_digit_plain (x : N) :
  (x < 16)%N ->
  ObjectId.is_ascii_space (ObjectId.hex_digit x) = false
  ∧ is_continuation (ObjectId.hex_digit x) = false.
Proof.
  intros Hx.
  assert (Hcases : x ∈ List.map N.of_nat (seq 0 16)).
  { apply list_elem_of_In, List.in_map_iff; exists (N.to_nat x); split; [lia |].
    apply List.in_seq; lia. }
  simpl in Hcases.
  repeat (apply elem_of_cons in Hcases as [->|Hcases]; [split; reflexivity |]).
  now apply elem_of_nil in Hcases.
Qed.

Lemma fromhex_bytes_step (s : string) :
  (∀ l, ObjectId.fromhex s = Some l -> Forall (fun b => (b < 256)%N) l)
  ∧ (∀ a l, ObjectId.fromhex (String a s) = Some l ->
       Forall (fun b => (b < 256)%N) l).
Proof.
  induction s as [|b rest [IH1 IH2]].
  - split; [intros l [= <-]; constructor |].
    intros a l; simpl; destruct (ObjectId.is_ascii_space a);
      [intros [= <-]; constructor | discriminate].
  - split; [exact (IH2 b) |].
    intros a l.
    change (ObjectId.fromhex (String a (String b rest)))
      with (if ObjectId.is_ascii_space a then ObjectId.fromhex (String b rest)
            else match ObjectId.hex_value a, ObjectId.hex_value b,
                       ObjectId.fromhex rest with
                 | Some x, Some y, Some l => Some ((16 * x + y)%N :: l)
                 | _, _, _ => None
                 end).
    destruct (ObjectId.is_ascii_space a); [exact (IH2 b l) |].
    destruct (ObjectId.hex_value a) as [x|] eqn:Hx; [| discriminate].
    destruct (ObjectId.hex_value b) as [y|] eqn:Hy; [| discriminate].
    destruct (ObjectId.fromhex rest) as [l'|] eqn:Hl; [| discriminate].
    intros [= <-].
    apply hex_value_bound in Hx, Hy.
    constructor; [lia | now apply IH1].
Qed.

Lemma fromhex_bytes (s : string) (l : list N) :
  ObjectId.fromhex s = Some l -> Forall (fun b => (b < 256)%N) l.
Proof. apply fromhex_bytes_step. Qed.

Lemma fromhex_hexlify (l : list N) :
  Forall (fun b => (b < 256)%N) l -> ObjectId.fromhex (ObjectId.hexlify l) = Some l.
Proof.
  induction 1 as [|b l Hb _ IH]; [reflexivity |].
  assert (Hhi : (b / 16 < 16)%N) by (apply N.Div0.div_lt_upper_bound; lia).
  assert (Hlo : (b mod 16 < 16)%N) by (apply N.mod_lt; lia).
  change (ObjectId.fromhex (ObjectId.hexlify (b :: l)))
    with (if ObjectId.is_ascii_space (ObjectId.hex_digit (b / 16))
          then ObjectId.fromhex
                 (String (ObjectId.hex_digit (b mod 16)) (ObjectId.hexlify l))
          else match ObjectId.hex_value (ObjectId.hex_digit (b / 16)),
                     ObjectId.hex_value (ObjectId.hex_digit (b mod 16)),
                     ObjectId.fromhex (ObjectId.hexlify l) with
               | Some x, Some y, Some l => Some ((16 * x + y)%N :: l)
               | _, _, _ => None
               end).
  destruct (hex_digit_plain _ Hhi) as [-> _].
  rewrite !hex_value_hex_digit, IH by assumption.
  do 2 f_equal.
  pose proof (N.div_mod b 16); lia.
Qed.

(** Printing an identifier that was read from a string and reading it back
    gives the same identifier. *)
Lemma ObjectId_new_str_new (s : string) :
  ObjectId.new (ObjectId.str (ObjectId.new s)) = ObjectId.new s.
Proof.
  unfold ObjectId.new, ObjectId.str; simpl; f_equal.
  destruct (ObjectId.fromhex s) as [l|] eqn:Hs; simpl; [| reflexivity].
  now rewrite (fromhex_hexlify l (fromhex_bytes s l Hs)).
Qed.

(** ** What the second loop has checked *)

Lemma OrderItem_validate_holds (x y : OrderItem.t) :
  OrderItem.validate x = Ok y ->
  1 <= OrderItem.quantity x
  ∧ ge0 (OrderItem.unit_price x) = true
  ∧ ge0 (OrderItem.embroidery_fee x) = true
  ∧ ge0 (OrderItem.line_total x) = true.
Proof.
  unfold OrderItem.validate.
  destruct (Z.leb_spec 1 (OrderItem.quantity x)); simpl; [| discriminate].
  destruct (ge0 (OrderItem.unit_price x)); simpl; [| discriminate].
  destruct (ge0 (OrderItem.embroidery_fee x)); simpl; [| discriminate].
  destruct (ge0 (OrderItem.line_total x)); simpl; [| discriminate].
  intros _; repeat split; assumption || reflexivity.
Qed.

Lemma Order_validate_holds (x y : Order.t) :
  Order.validate x = Ok y ->
  ge0 (Order.sub_total x) = true
  ∧ ge0 (Order.embroidery_total x) = true
  ∧ ge0 (Order.grand_total x) = true.
Proof.
  unfold Order.validate.
  destruct (ge0 (Order.sub_total x)); simpl; [| discriminate].
  destruct (ge0 (Order.embroidery_total x)); simpl; [| discriminate].
  destruct (ge0 (Order.grand_total x)); simpl; [| discriminate].
  intros _; repeat split; reflexivity.
Qed.

Lemma add_item_Ok_checked (pm : gmap string ProductDoc.t) (acc acc' : totals)
    (it : CreateOrderItem.t) :
  add_item pm acc it = Ok acc' ->
  is_infinity (Z2float (CreateOrderItem.quantity it)) = false
  ∧ ∃ oi, order_items acc' = (order_items acc ++ [oi])%list
      ∧ item_within_schema oi.
Proof.
  unfold add_item.
  destruct (pm !! CreateOrderItem.product_id it) as [p|]; [| discriminate].
  intros Hadd.
  apply bind_Ok in Hadd as (u & _ & Hadd).
  apply bind_Ok in Hadd as (q & Hq & Hadd).
  apply bind_Ok in Hadd as (oi & Hoi & Hadd).
  split.
  - unfold PyLong_AsDouble in Hq.
    destruct (is_infinity (Z2float (CreateOrderItem.quantity it)));
      [discriminate | reflexivity].
  - apply OrderItem_make_Ok in Hoi as (ts & cs & _ & _ & _ & Hvalid).
    pose proof (OrderItem_validate_holds _ _ Hvalid) as Hschema.
    injection Hadd as <-; simpl.
    eexists; split; [reflexivity | exact Hschema].
Qed.

Lemma add_items_Ok_checked (pm : gmap string ProductDoc.t)
    (its : list CreateOrderItem.t) (acc acc' : totals) :
  add_items pm acc its = Ok acc' ->
  Forall (fun it => is_infinity (Z2float (CreateOrderItem.quantity it)) = false) its
  ∧ ∃ ois, order_items acc' = (order_items acc ++ ois)%list
      ∧ Forall item_within_schema ois.
Proof.
  revert acc; induction its as [|it rest IH]; intros acc; simpl.
  - intros [= <-]; split; [constructor |].
    exists []; split; [now rewrite app_nil_r | constructor].
  - intros H; apply bind_Ok in H as (acc1 & H1 & H).
    apply add_item_Ok_checked in H1 as (Hq & oi & Ho & Hoi).
    apply IH in H as (Hqs & ois & Ho' & Hois).
    split; [now constructor |].
    exists (oi :: ois); split; [| now constructor].
    rewrite Ho', Ho, <- app_assoc; reflexivity.
Qed.

Lemma build_order_Ok_checked (coll : list ProductDoc.t) (payload : CreateOrder.t)
    (o : Order.t) (g : float) :
  build_order coll payload = Ok (o, g) ->
  Forall (fun it => is_infinity (Z2float (CreateOrderItem.quantity it)) = false)
    (CreateOrder.items payload)
  ∧ Forall item_within_schema (Order.items o)
  ∧ ge0 (Order.sub_total o) = true
  ∧ ge0 (Order.embroidery_total o) = true
  ∧ ge0 (Order.grand_total o) = true.
Proof.
  unfold build_order; intros H.
  apply bind_Ok in H as (u & _ & H).
  destruct (negb _); [discriminate |].
  destruct (negb _); [discriminate |].
  apply bind_Ok in H as (acc & Hacc & H).
  apply bind_Ok in H as (o' & Ho & H).
  injection H as -> <-.
  pose proof (Order_validate_holds _ _ Ho) as (Hs & He & Hg).
  apply Order_validate_Ok in Ho; subst o.
  apply add_items_Ok_checked in Hacc as (Hq & ois & Hitems & Hois); simpl in *.
  subst; repeat split; assumption.
Qed.

(** ** Which products are found *)

Lemma build_products_map_found_gen (docs : list ProductDoc.t)
    (m : gmap string ProductDoc.t) (k : string) :
  is_Some (m !! k) ∨ (∃ d, d ∈ docs ∧ ObjectId.str (ProductDoc._id d) = k) ->
  is_Some (fold_left (fun m doc => <[ObjectId.str (ProductDoc._id doc) := doc]> m)
             docs m !! k).
Proof.
  revert m; induction docs as [|d docs IH]; intros m; simpl.
  - intros [H|(d & Hd & _)]; [exact H | now apply elem_of_nil in Hd].
  - intros H; apply IH.
    destruct (decide (ObjectId.str (ProductDoc._id d) = k)) as [E|E].
    + left; subst k; rewrite lookup_insert_eq; eauto.
    + rewrite lookup_insert_ne by assumption.
      destruct H as [H|(d' & Hd' & Hk)]; [now left |].
      apply elem_of_cons in Hd' as [->|Hd']; [contradiction | right; eauto].
Qed.

(** A valid identifier of the request that some document of the collection
    carries has an entry in [products_map], under its printed form. *)
Lemma products_map_of_found (coll : list ProductDoc.t)
    (its : list CreateOrderItem.t) (it : CreateOrderItem.t) (d : ProductDoc.t) :
  it ∈ its ->
  ObjectId.is_valid (CreateOrderItem.product_id it) = true ->
  d ∈ coll ->
  ProductDoc._id d = ObjectId.new (CreateOrderItem.product_id it) ->
  is_Some (products_map_of coll its
             !! ObjectId.str (ObjectId.new (CreateOrderItem.product_id it))).
Proof.
  intros Hit Hvalid Hd Hid.
  unfold products_map_of, build_products_map.
  apply build_products_map_found_gen; right.
  exists d; split; [| now rewrite Hid].
  unfold find_id_in; apply list_elem_of_In, List.filter_In.
  split; [now apply list_elem_of_In |].
  apply bool_decide_eq_true; rewrite Hid.
  unfold collect_ids; apply list_elem_of_In, List.in_map_iff.
  exists it; split; [reflexivity |].
  apply List.filter_In; split; [now apply list_elem_of_In | assumption].
Qed.

(** An identifier of the request that no document carries has no entry. *)
Lemma products_map_of_absent (coll : list ProductDoc.t)
    (its : list CreateOrderItem.t) (s : string) :
  (∀ d, d ∈ coll -> ProductDoc._id d ≠ ObjectId.new s) ->
  products_map_of coll its !! ObjectId.str (ObjectId.new s) = None.
Proof.
  intros Hnone.
  destruct (products_map_of coll its !! ObjectId.str (ObjectId.new s))
    as [p|] eqn:Hp; [| reflexivity].
  apply products_map_of_lookup in Hp as (Hin & Hstr & Hid).
  exfalso; apply (Hnone p Hin).
  unfold collect_ids in Hid.
  apply list_elem_of_In, List.in_map_iff in Hid as (it & Hit & _).
  rewrite <- Hit in Hstr |- *.
  rewrite <- (ObjectId_new_str_new (CreateOrderItem.product_id it)), Hstr.
  apply ObjectId_new_str_new.
Qed.

Lemma products_map_of_size_missing (coll : list ProductDoc.t)
    (its : list CreateOrderItem.t) (it : CreateOrderItem.t) :
  it ∈ its ->
  (∀ d, d ∈ coll -> ProductDoc._id d ≠ ObjectId.new (CreateOrderItem.product_id it)) ->
  (size (products_map_of coll its) < length its)%nat.
Proof.
  intros Hit Hnone.
  set (k := ObjectId.str (ObjectId.new (CreateOrderItem.product_id it))).
  assert (Hk : k ∈ (list_to_set (requested_keys its) : gset string)).
  { apply elem_of_list_to_set, list_elem_of_In, List.in_map_iff.
    exists it; split; [reflexivity | now apply list_elem_of_In]. }
  assert (Hsub : dom (products_map_of coll its)
                 ⊆ (list_to_set (requested_keys its) : gset string) ∖ {[k]}).
  { intros x Hx; apply elem_of_difference; split.
    - exact (products_map_of_dom coll its x Hx).
    - intros Hxk; apply elem_of_singleton in Hxk; subst x.
      apply elem_of_dom in Hx as [p Hp].
      unfold k in Hp; rewrite products_map_of_absent in Hp by assumption.
      discriminate. }
  apply subseteq_size in Hsub; rewrite size_dom in Hsub.
  rewrite size_difference, size_singleton in Hsub
    by (now apply singleton_subseteq_l).
  pose proof (size_list_to_set_le (requested_keys its)) as Hle.
  assert (Hlen : length (requested_keys its) = length its)
    by (unfold requested_keys; apply length_map).
  assert (Hpos : (0 < size (list_to_set (requested_keys its) : gset string))%nat).
  { apply Nat.neq_0_lt_0; intros H0; apply size_empty_iff in H0.
    rewrite H0 in Hk; now apply elem_of_empty in Hk. }
  lia.
Qed.

(** When the identifiers of the request are valid, canonical and pairwise
    different, and each names a document, every one of them is found. *)
Lemma products_map_of_all_found (coll : list ProductDoc.t)
    (its : list CreateOrderItem.t) :
  Forall (fun it => ObjectId.is_valid (CreateOrderItem.product_id it) = true
                    ∧ canonical_id (CreateOrderItem.product_id it)
                    ∧ ∃ d, d ∈ coll
                        ∧ ProductDoc._id d = ObjectId.new (CreateOrderItem.product_id it))
    its ->
  NoDup (List.map CreateOrderItem.product_id its) ->
  size (products_map_of coll its) = length its
  ∧ Forall (fun it => is_Some (products_map_of coll its
                                 !! CreateOrderItem.product_id it)) its.
Proof.
  intros Hall Hnd.
  assert (Hfound : Forall (fun it => is_Some (products_map_of coll its
                                 !! CreateOrderItem.product_id it)) its).
  { rewrite Forall_forall in Hall |- *; intros it Hit.
    destruct (Hall it Hit) as (Hv & Hc & d & Hd & Hid).
    rewrite <- Hc; now apply (products_map_of_found coll its it d). }
  split; [| exact Hfound].
  assert (Hkeys : requested_keys its = List.map CreateOrderItem.product_id its).
  { unfold requested_keys; apply List.map_ext_in; intros it Hit.
    apply list_elem_of_In in Hit.
    rewrite Forall_forall in Hall; now destruct (Hall it Hit) as (_ & Hc & _). }
  assert (Hdom : dom (products_map_of coll its)
                 = (list_to_set (requested_keys its) : gset string)).
  { apply set_eq; intros k; split; [exact (products_map_of_dom coll its k) |].
    rewrite Hkeys; intros Hk.
    apply elem_of_list_to_set, list_elem_of_In, List.in_map_iff in Hk
      as (it & <- & Hit).
    apply elem_of_dom; rewrite Forall_forall in Hfound.
    now apply Hfound, list_elem_of_In. }
  rewrite <- size_dom, Hdom, Hkeys, size_list_to_set by assumption.
  apply length_map.
Qed.

Lemma add_item_found_raises (pm : gmap string ProductDoc.t) (acc : totals)
    (it : CreateOrderItem.t) (e : exn) :
  is_Some (pm !! CreateOrderItem.product_id it) ->
  add_item pm acc it = Raise e ->
  e = OverflowError ∨ e = TypeError ∨ e = ValueError
  ∨ e = ValidationError "OrderItem".
Proof.
  intros [p Hp] Hadd.
  apply add_item_raises in Hadd as [[Hnone _]|Hadd]; [congruence | exact Hadd].
Qed.

Lemma add_items_found_raises (pm : gmap string ProductDoc.t)
    (its : list CreateOrderItem.t) (acc : totals) (e : exn) :
  Forall (fun it => is_Some (pm !! CreateOrderItem.product_id it)) its ->
  add_items pm acc its = Raise e ->
  e = OverflowError ∨ e = TypeError ∨ e = ValueError
  ∨ e = ValidationError "OrderItem".
Proof.
  intros Hall; revert acc; induction Hall as [|it rest Hit _ IH]; intros acc; simpl.
  - discriminate.
  - intros Hadd; apply bind_Raise in Hadd as [Hadd|(acc' & _ & Hadd)].
    + exact (add_item_found_raises pm acc it e Hit Hadd).
    + exact (IH acc' Hadd).
Qed.

(** A price that is a number, or missing: [float] makes a [float] of it, or
    raises [OverflowError] for an [int] out of range. *)
Lemma py_float_of_number (v : option value) (e : exn) :
  number_or_missing v ->
  py_float (default (VInt 0) v) = Raise e -> e = OverflowError.
Proof.
  destruct v as [[]|]; simpl; try tauto; try discriminate; intros _;
    apply PyLong_AsDouble_raises.
Qed.

Lemma add_item_priced_raises (pm : gmap string ProductDoc.t) (acc : totals)
    (it : CreateOrderItem.t) (p : ProductDoc.t) (e : exn) :
  pm !! CreateOrderItem.product_id it = Some p ->
  number_or_missing (ProductDoc.base_price p) ->
  add_item pm acc it = Raise e ->
  e = OverflowError ∨ e = ValidationError "OrderItem".
Proof.
  intros Hp Hnum; unfold add_item; rewrite Hp; intros Hadd.
  apply bind_Raise in Hadd as [Hu|(u & _ & Hadd)].
  { left; exact (py_float_of_number _ _ Hnum Hu). }
  apply bind_Raise in Hadd as [Hq|(q & _ & Hadd)].
  { apply PyLong_AsDouble_raises in Hq as ->; auto. }
  apply bind_Raise in Hadd as [Hoi|(oi & _ & Hadd)]; [| discriminate].
  apply OrderItem_make_raises in Hoi as ->; auto.
Qed.

Lemma add_items_priced_raises (pm : gmap string ProductDoc.t)
    (its : list CreateOrderItem.t) (acc : totals) (e : exn) :
  Forall (fun it => ∃ p, pm !! CreateOrderItem.product_id it = Some p
                      ∧ number_or_missing (ProductDoc.base_price p)) its ->
  add_items pm acc its = Raise e ->
  e = OverflowError ∨ e = ValidationError "OrderItem".
Proof.
  intros Hall; revert acc;
    induction Hall as [|it rest (p & Hp & Hnum) _ IH]; intros acc; simpl.
  - discriminate.
  - intros Hadd; apply bind_Raise in Hadd as [Hadd|(acc' & _ & Hadd)].
    + exact (add_item_priced_raises pm acc it p e Hp Hnum Hadd).
    + exact (IH acc' Hadd).
Qed.

(** A request that is well formed, for products that exist, gets past every
    rejection and every lookup: what is left to raise is the second loop,
    once every product is found, and the check of the order. *)
Lemma build_order_well_formed (coll : list ProductDoc.t) (payload : CreateOrder.t) :
  Forall item_ok (CreateOrder.items payload) ->
  Forall (fun it => ObjectId.is_valid (CreateOrderItem.product_id it) = true
                    ∧ canonical_id (CreateOrderItem.product_id it)
                    ∧ ∃ d, d ∈ coll
                        ∧ ProductDoc._id d = ObjectId.new (CreateOrderItem.product_id it))
    (CreateOrder.items payload) ->
  NoDup (List.map CreateOrderItem.product_id (CreateOrder.items payload)) ->
  Forall (fun it => is_Some (products_map_of coll (CreateOrder.items payload)
                               !! CreateOrderItem.product_id it))
    (CreateOrder.items payload)
  ∧ ((∃ o g, build_order coll payload = Ok (o, g))
     ∨ build_order coll payload = Raise (ValidationError "Order")
     ∨ ∃ acc e, add_items (products_map_of coll (CreateOrder.items payload))
                  acc (CreateOrder.items payload) = Raise e
              ∧ build_order coll payload = Raise e).
Proof.
  intros Hok Hall Hnd.
  destruct (products_map_of_all_found _ _ Hall Hnd) as [Hsize Hfound].
  split; [exact Hfound |].
  assert (Hvalid : Forall (fun it => ObjectId.is_valid
                                       (CreateOrderItem.product_id it) = true)
                     (CreateOrder.items payload))
    by (eapply Forall_impl; [exact Hall | now intros it (Hv & _)]).
  unfold build_order.
  apply check_items_ok in Hok; rewrite Hok; simpl.
  apply collect_ids_length in Hvalid; rewrite Hvalid, Nat.eqb_refl; simpl.
  fold (products_map_of coll (CreateOrder.items payload)).
  rewrite Hsize, Nat.eqb_refl; simpl.
  destruct (add_items _ _ _) as [acc|e] eqn:Hacc; simpl.
  - unfold Order.validate; destruct (_ && _); simpl; eauto.
  - right; right; eauto.
Qed.

(** The document added last is the one found under its identifier. *)
Lemma products_map_of_last (coll : list ProductDoc.t) (p : ProductDoc.t)
    (its : list CreateOrderItem.t) :
  ProductDoc._id p ∈ collect_ids its ->
  products_map_of (coll ++ [p]) its !! ObjectId.str (ProductDoc._id p) = Some p.
Proof.
  intros Hin; unfold products_map_of, build_products_map, find_id_in.
  rewrite List.filter_app; simpl.
  rewrite bool_decide_true by assumption.
  rewrite fold_left_app; simpl; apply lookup_insert_eq.
Qed.

(** ** More on the orders created *)

Section MoreOnOrders.

Variable new_id : list (string * Order.t) -> string.

(** X1. Whatever it answers, [create_order] leaves the products as they
    were and keeps every order already stored, in place. A 201 adds exactly
    one order, at the end, under the identifier returned, which is the one
    generated from the orders stored before; an exception adds none. *)
Theorem create_order_extends_the_store (st st' : Store) (payload : CreateOrder.t)
    (res : result Created) :
  create_order new_id st payload = (res, st') ->
  merchandiseproduct st' = merchandiseproduct st
  ∧ ((∃ r o, res = Ok r ∧ id r = new_id (order st)
             ∧ order st' = (order st ++ [(id r, o)])%list)
     ∨ (∃ e, res = Raise e ∧ order st' = order st)).
Proof.
  destruct res as [r|e]; intros H.
  - apply create_order_Ok in H as (o & _ & Hid & Hcoll & Hstored).
    split; [assumption | left; eauto].
  - apply create_order_Raise in H as [_ ->].
    split; [reflexivity | right; eauto].
Qed.

(** X2. An order is only created for a request whose items name
    pairwise different products. *)
Theorem created_order_has_distinct_products (st st' : Store)
    (payload : CreateOrder.t) (r : Created) :
  create_order new_id st payload = (Ok r, st') ->
  NoDup (List.map CreateOrderItem.product_id (CreateOrder.items payload)).
Proof.
  intros H; apply create_order_Ok in H as (o & Hb & _).
  exact (build_order_distinct_products _ _ _ _ Hb).
Qed.

(** X3. An order is only created for a request whose product
    identifiers are written as the database prints them, in lower case: the
    dictionary of the products found is keyed by the printed identifiers and
    looked up by the identifiers as sent. *)
Theorem created_order_has_canonical_ids (st st' : Store)
    (payload : CreateOrder.t) (r : Created) :
  create_order new_id st payload = (Ok r, st') ->
  Forall (fun it => canonical_id (CreateOrderItem.product_id it))
    (CreateOrder.items payload).
Proof.
  intros H; open_created H o.
  apply Forall_forall; intros it Hit.
  apply list_elem_of_lookup in Hit as [i Hi].
  destruct (Forall2_lookup_l _ _ _ _ _ Hitems Hi) as (oi & _ & p & Hp & _).
  apply products_map_of_lookup in Hp as (_ & Hstr & Hin).
  unfold collect_ids in Hin.
  apply list_elem_of_In, List.in_map_iff in Hin as (it' & Hit' & _).
  unfold canonical_id; rewrite <- Hstr, <- Hit'.
  now rewrite ObjectId_new_str_new.
Qed.

(** X4. Every order stored satisfies the constraints of its schema:
    each item has a quantity of at least 1, a color of the palette, and a
    unit price, an embroidery fee and a line total that are not below 0.0
    (and not NaN); the three totals of the order are not below 0.0. *)
Theorem stored_order_is_within_schema (st st' : Store) (payload : CreateOrder.t)
    (r : Created) :
  create_order new_id st payload = (Ok r, st') ->
  ∃ o, order st' = (order st ++ [(id r, o)])%list
    ∧ Forall (fun oi => 1 <= OrderItem.quantity oi
                        ∧ OrderItem.color oi ∈ allowed_colors
                        ∧ PrimFloat.leb 0 (OrderItem.unit_price oi) = true
                        ∧ PrimFloat.leb 0 (OrderItem.embroidery_fee oi) = true
                        ∧ PrimFloat.leb 0 (OrderItem.line_total oi) = true)
        (Order.items o)
    ∧ PrimFloat.leb 0 (Order.sub_total o) = true
    ∧ PrimFloat.leb 0 (Order.embroidery_total o) = true
    ∧ PrimFloat.leb 0 (Order.grand_total o) = true.
Proof.
  intros H; apply create_order_Ok in H as (o & Hb & _ & _ & Hstored).
  pose proof (build_order_Ok_checked _ _ _ _ Hb) as (_ & Hschema & Hs & He & Hg).
  apply build_order_Ok in Hb as (Hok & _ & _ & Hitems & _).
  exists o; repeat split; try assumption.
  apply Forall_lookup; intros i oi Hi.
  destruct (Forall2_lookup_r _ _ _ _ _ Hitems Hi) as (it & Hit & Hsnap).
  destruct Hsnap as (p & _ & _ & _ & _ & Hcolor & _).
  destruct (Forall_lookup_1 _ _ _ _ Hok Hit) as [Hc _].
  destruct (Forall_lookup_1 _ _ _ _ Hschema Hi) as (Hq & Hu & Hf & Hl).
  rewrite Hcolor; repeat split; assumption.
Qed.

(** X5. A product whose [base_price] is below 0.0, or NaN, cannot be
    ordered: a request with an item that resolves to it ends in an
    exception, and nothing is stored. The price is the [float] that [float]
    makes of the field: a [float] below 0.0 and a negative [int] alike. *)
Theorem negative_price_is_never_ordered (st : Store) (payload : CreateOrder.t)
    (it : CreateOrderItem.t) (p : ProductDoc.t) (v : value) (b : float) :
  it ∈ CreateOrder.items payload ->
  products_map_of (merchandiseproduct st) (CreateOrder.items payload)
    !! CreateOrderItem.product_id it = Some p ->
  ProductDoc.base_price p = Some v ->
  py_float v = Ok b ->
  PrimFloat.leb 0 b = false ->
  ∃ e, create_order new_id st payload = (Raise e, st).
Proof.
  intros Hit Hp Hb Hv Hneg.
  destruct (create_order new_id st payload) as [[r|e] st'] eqn:H.
  - exfalso.
    apply create_order_Ok in H as (o & Hbuild & _).
    pose proof (build_order_Ok_checked _ _ _ _ Hbuild) as (_ & Hschema & _).
    apply build_order_Ok in Hbuild as (_ & _ & _ & Hitems & _).
    apply list_elem_of_lookup in Hit as [i Hi].
    destruct (Forall2_lookup_l _ _ _ _ _ Hitems Hi) as (oi & Hoi & p' & Hp' & Hrest).
    destruct Hrest as (_ & _ & _ & _ & _ & _ & Hunit & _).
    rewrite Hp in Hp'; injection Hp' as <-.
    destruct (Forall_lookup_1 _ _ _ _ Hschema Hoi) as (_ & Hu & _).
    unfold unit_price_of in Hunit; rewrite Hb in Hunit; simpl in Hunit.
    unfold ge0 in Hu; congruence.
  - apply create_order_Raise in H as [_ ->]; eauto.
Qed.

(** X6. A quantity too large for a [float] cannot be ordered: the
    product with the price raises, and nothing is stored. *)
Theorem huge_quantity_is_never_ordered (st : Store) (payload : CreateOrder.t)
    (it : CreateOrderItem.t) :
  it ∈ CreateOrder.items payload ->
  ¬ fits_float (CreateOrderItem.quantity it) ->
  ∃ e, create_order new_id st payload = (Raise e, st).
Proof.
  intros Hit Hq.
  destruct (create_order new_id st payload) as [[r|e] st'] eqn:H.
  - exfalso; apply Hq.
    apply create_order_Ok in H as (o & Hbuild & _).
    apply build_order_Ok_checked in Hbuild as (Hfits & _).
    rewrite Forall_forall in Hfits; exact (Hfits it Hit).
  - apply create_order_Raise in H as [_ ->]; eauto.
Qed.

(** X7. The order stored carries the customer's name, the customer's
    e-mail address and the notes of the request unchanged. *)
Theorem stored_order_keeps_customer (st st' : Store) (payload : CreateOrder.t)
    (r : Created) :
  create_order new_id st payload = (Ok r, st') ->
  ∃ o, order st' = (order st ++ [(id r, o)])%list
    ∧ Order.customer_name o = CreateOrder.customer_name payload
    ∧ Order.customer_email o = CreateOrder.customer_email payload
    ∧ Order.notes o = CreateOrder.notes payload.
Proof.
  intros H; open_created H o; exists o; repeat split; assumption.
Qed.

(** X9. A request whose items name products that do not all exist is
    rejected: when every item passes the checks of color and quantity and
    every identifier is valid, one identifier that no document of the
    collection carries is enough for a 400 "One or more products not found",
    with nothing stored. *)
Theorem missing_product_is_not_found (st : Store) (payload : CreateOrder.t)
    (it : CreateOrderItem.t) :
  Forall item_ok (CreateOrder.items payload) ->
  Forall (fun it => ObjectId.is_valid (CreateOrderItem.product_id it) = true)
    (CreateOrder.items payload) ->
  it ∈ CreateOrder.items payload ->
  (∀ d, d ∈ merchandiseproduct st ->
        ProductDoc._id d ≠ ObjectId.new (CreateOrderItem.product_id it)) ->
  create_order new_id st payload
  = (Raise (HTTPException 400 "One or more products not found"), st).
Proof.
  intros Hok Hvalid Hit Hnone; unfold create_order.
  rewrite build_order_not_found; [reflexivity | assumption | assumption |].
  pose proof (products_map_of_size_missing _ _ it Hit Hnone); lia.
Qed.

(** X10. A request is never turned down as a client's error, and no
    lookup fails, when its items pass the checks of color and quantity and
    name, by valid identifiers in lower case and without repeating one,
    products that exist: the answer is a 201, unless the second loop or the
    schema raises, which leaves [OverflowError] (a price or a quantity that
    does not fit a [float]), [TypeError] and [ValueError] (a [base_price]
    that [float] cannot read) and [ValidationError] (a broken constraint of
    the schema). When the price of every product named is a number, or
    missing, [TypeError] and [ValueError] are excluded as well. *)
Theorem well_formed_request_is_not_rejected (st : Store) (payload : CreateOrder.t) :
  Forall item_ok (CreateOrder.items payload) ->
  Forall (fun it => ObjectId.is_valid (CreateOrderItem.product_id it) = true
                    ∧ canonical_id (CreateOrderItem.product_id it)
                    ∧ ∃ d, d ∈ merchandiseproduct st
                        ∧ ProductDoc._id d = ObjectId.new (CreateOrderItem.product_id it))
    (CreateOrder.items payload) ->
  NoDup (List.map CreateOrderItem.product_id (CreateOrder.items payload)) ->
  ((∃ r, fst (create_order new_id st payload) = Ok r)
   ∨ fst (create_order new_id st payload) = Raise OverflowError
   ∨ fst (create_order new_id st payload) = Raise TypeError
   ∨ fst (create_order new_id st payload) = Raise ValueError
   ∨ ∃ model, fst (create_order new_id st payload) = Raise (ValidationError model))
  ∧ ((∀ it p, it ∈ CreateOrder.items payload ->
        products_map_of (merchandiseproduct st) (CreateOrder.items payload)
          !! CreateOrderItem.product_id it = Some p ->
        number_or_missing (ProductDoc.base_price p)) ->
     (∃ r, fst (create_order new_id st payload) = Ok r)
     ∨ fst (create_order new_id st payload) = Raise OverflowError
     ∨ ∃ model, fst (create_order new_id st payload) = Raise (ValidationError model)).
Proof.
  intros Hok Hall Hnd; unfold create_order.
  destruct (build_order_well_formed _ _ Hok Hall Hnd)
    as [Hfound [(o & g & ->)|[->|(acc & e & Hadd & ->)]]]; simpl;
    try solve [split; [| intros _]; eauto 6].
  split.
  - apply add_items_found_raises in Hadd as [->|[->|[->| ->]]]; eauto 6.
  - intros Hnum.
    apply add_items_priced_raises in Hadd as [->| ->]; eauto.
    apply Forall_forall; intros it Hit.
    rewrite Forall_forall in Hfound; destruct (Hfound it Hit) as [p Hp].
    exists p; split; [exact Hp | exact (Hnum it p Hit Hp)].
Qed.

End MoreOnOrders.

(** X8. The checks of color and quantity come first and consult
    nothing: a request with an item that fails them gets the same rejection
    from every store and under every generator of identifiers, and leaves
    that store as it was. *)
Theorem first_checks_ignore_the_store (payload : CreateOrder.t) :
  Exists (fun it => ¬ item_ok it) (CreateOrder.items payload) ->
  ∃ e, ∀ new_id st, create_order new_id st payload = (Raise e, st).
Proof.
  intros Hex.
  destruct (check_items (CreateOrder.items payload)) as [u|e] eqn:Hchk.
  - exfalso; apply check_items_result in Hchk.
    apply Exists_exists in Hex as (it & Hit & Hbad).
    rewrite Forall_forall in Hchk; exact (Hbad (Hchk it Hit)).
  - exists e; intros new_id st; unfold create_order, build_order.
    now rewrite Hchk.
Qed.

(** ** Rendering the identifier of a document *)

Section MoreOnDocuments.

Variable repr : value -> string.

Lemma to_str_id_Some (d : gmap string value) :
  ∃ d', to_str_id repr (Some d) = Some d'
    ∧ d' !! "_id" = None
    ∧ (∀ v, d !! "_id" = Some v -> d' !! "id" = Some (VStr (py_str repr v)))
    ∧ (d !! "_id" = None -> d' = d)
    ∧ (∀ k, k ≠ "_id" -> k ≠ "id" -> d' !! k = d !! k).
Proof.
  unfold to_str_id; destruct (d !! "_id") as [v|] eqn:Hid.
  - eexists; split; [reflexivity |]; repeat split.
    + rewrite lookup_insert_ne by discriminate; apply lookup_delete_eq.
    + intros v' [= <-]; apply lookup_insert_eq.
    + discriminate.
    + intros k Hk1 Hk2.
      rewrite lookup_insert_ne by congruence.
      apply lookup_delete_ne; congruence.
  - exists d; repeat split; try assumption; discriminate.
Qed.

(** X11. [to_str_id] gives nothing for nothing and a document for a
    document. The document it gives has no [_id]; where the one it was given
    has an [_id], it has the printed form of that [_id] under [id], in place
    of any [id] there was; where the one it was given has no [_id], it is
    that document; in both cases every other field is as it was. *)
Theorem to_str_id_renders_id (d : gmap string value) :
  to_str_id repr None = None
  ∧ ∃ d', to_str_id repr (Some d) = Some d'
      ∧ d' !! "_id" = None
      ∧ (∀ v, d !! "_id" = Some v -> d' !! "id" = Some (VStr (py_str repr v)))
      ∧ (∀ o, d !! "_id" = Some (VObjectId o) ->
              d' !! "id" = Some (VStr (ObjectId.str o)))
      ∧ (d !! "_id" = None -> d' = d)
      ∧ (∀ k, k ≠ "_id" -> k ≠ "id" -> d' !! k = d !! k).
Proof.
  split; [reflexivity |].
  destruct (to_str_id_Some d) as (d' & Hd' & Hnone & Hid & Hsame & Hrest).
  exists d'; repeat split; try assumption.
  intros o Ho; exact (Hid _ Ho).
Qed.

(** X12. Rendering twice is rendering once. *)
Theorem to_str_id_idempotent (doc : option (gmap string value)) :
  to_str_id repr (to_str_id repr doc) = to_str_id repr doc.
Proof.
  destruct doc as [d|]; [| reflexivity].
  destruct (to_str_id_Some d) as (d' & -> & Hnone & _).
  unfold to_str_id; now rewrite Hnone.
Qed.

End MoreOnDocuments.

(** ** Identifiers as the database makes them *)

Lemma hexlify_length (l : list N) :
  Forall (fun b => (b < 256)%N) l ->
  str_len (ObjectId.hexlify l) = (2 * length l)%nat.
Proof.
  induction 1 as [|b l Hb _ IH]; [reflexivity |].
  assert (Hhi : (b / 16 < 16)%N) by (apply N.Div0.div_lt_upper_bound; lia).
  assert (Hlo : (b mod 16 < 16)%N) by (apply N.mod_lt; lia).
  change (str_len (ObjectId.hexlify (b :: l)))
    with ((if is_continuation (ObjectId.hex_digit (b / 16)) then 0 else 1)
          + ((if is_continuation (ObjectId.hex_digit (b mod 16)) then 0 else 1)
             + str_len (ObjectId.hexlify l)))%nat.
  destruct (hex_digit_plain _ Hhi) as [_ ->].
  destruct (hex_digit_plain _ Hlo) as [_ ->].
  rewrite IH; simpl; lia.
Qed.

Lemma proper_oid_str (o : ObjectId.t) :
  proper_oid o ->
  ObjectId.is_valid (ObjectId.str o) = true
  ∧ ObjectId.new (ObjectId.str o) = o
  ∧ canonical_id (ObjectId.str o).
Proof.
  intros [Hlen Hbytes]; destruct o as [l]; simpl in *.
  assert (Hnew : ObjectId.new (ObjectId.str (ObjectId.mk l)) = ObjectId.mk l).
  { unfold ObjectId.new, ObjectId.str; simpl.
    now rewrite (fromhex_hexlify l Hbytes). }
  repeat split.
  - unfold ObjectId.is_valid, ObjectId.str; simpl.
    rewrite (hexlify_length l Hbytes), Hlen, (fromhex_hexlify l Hbytes); reflexivity.
  - exact Hnew.
  - unfold canonical_id; now rewrite Hnew.
Qed.

(** ** The product endpoints *)

Lemma colors_check (cs : list string) :
  existsb (fun c => negb (bool_decide (c ∈ allowed_colors_of_products))) cs = false
  <-> Forall (fun c => c ∈ allowed_colors_of_products) cs.
Proof.
  induction cs as [|c cs IH]; simpl.
  - split; [constructor | reflexivity].
  - case_bool_decide as Hc; simpl.
    + rewrite IH; split; intros H; [now constructor | now inversion H].
    + split; [discriminate | intros H; inversion H; contradiction].
Qed.

Lemma same_palette : allowed_colors_of_products = allowed_colors.
Proof. reflexivity. Qed.

Section ProductFacts.

Variable repr : value -> string.
Variable new_oid : list (gmap string value) -> ObjectId.t.

(** The document [create_product] stores for a payload. *)
Lemma create_product_Ok (db db' : Database) (payload : CreateProduct.t)
    (r : CreatedProduct) :
  create_product new_oid db payload = (Ok r, db') ->
  CreateProduct.category payload ∈ allowed_cats
  ∧ Forall (fun c => c ∈ allowed_colors_of_products) (CreateProduct.colors payload)
  ∧ ge0 (CreateProduct.base_price payload) = true
  ∧ new_product_id r = ObjectId.str (new_oid (product_docs db))
  ∧ order_docs db' = order_docs db
  ∧ product_docs db'
    = (product_docs db
       ++ [<["_id" := VObjectId (new_oid (product_docs db))]>
            (MerchandiseProduct.model_dump
               {| MerchandiseProduct.title := CreateProduct.title payload;
                  MerchandiseProduct.category := CreateProduct.category payload;
                  MerchandiseProduct.description := CreateProduct.description payload;
                  MerchandiseProduct.base_price := CreateProduct.base_price payload;
                  MerchandiseProduct.colors := CreateProduct.colors payload;
                  MerchandiseProduct.images := CreateProduct.images payload;
                  MerchandiseProduct.in_stock := CreateProduct.in_stock payload |})])%list.
Proof.
  unfold create_product.
  case_bool_decide as Hcat; simpl; [| discriminate].
  destruct (existsb _ (CreateProduct.colors payload)) eqn:Hcolors; [discriminate |].
  apply colors_check in Hcolors.
  unfold MerchandiseProduct.validate; simpl.
  destruct (ge0 (CreateProduct.base_price payload)) eqn:Hprice; [| discriminate].
  simpl; intros [= <- <-]; simpl.
  repeat split; assumption || reflexivity.
Qed.

Lemma create_product_Raise (db db' : Database) (payload : CreateProduct.t)
    (e : exn) :
  create_product new_oid db payload = (Raise e, db') ->
  db' = db
  ∧ (e = HTTPException 400 "Invalid category"
     ∨ e = HTTPException 400 "One or more invalid colors"
     ∨ e = ValidationError "MerchandiseProduct").
Proof.
  unfold create_product.
  destruct (negb _); [intros [= <- <-]; auto |].
  destruct (existsb _ _); [intros [= <- <-]; auto |].
  unfold MerchandiseProduct.validate; simpl.
  destruct (ge0 _); simpl; [discriminate | intros [= <- <-]; auto].
Qed.

(** X13. [create_product] turns a payload down in this order: a
    category outside the four gets a 400 "Invalid category", whatever the
    rest; then a color outside the palette gets a 400 "One or more invalid
    colors"; then a [base_price] below 0.0, or NaN, fails the schema with a
    [ValidationError], which is no 400. These are the only exceptions, and
    each leaves the database as it was. *)
Theorem create_product_rejections (db : Database) (payload : CreateProduct.t) :
  (CreateProduct.category payload ∉ allowed_cats ->
   create_product new_oid db payload
   = (Raise (HTTPException 400 "Invalid category"), db))
  ∧ (CreateProduct.category payload ∈ allowed_cats ->
     Exists (fun c => c ∉ allowed_colors_of_products) (CreateProduct.colors payload) ->
     create_product new_oid db payload
     = (Raise (HTTPException 400 "One or more invalid colors"), db))
  ∧ (CreateProduct.category payload ∈ allowed_cats ->
     Forall (fun c => c ∈ allowed_colors_of_products) (CreateProduct.colors payload) ->
     PrimFloat.leb 0 (CreateProduct.base_price payload) = false ->
     create_product new_oid db payload
     = (Raise (ValidationError "MerchandiseProduct"), db)
     ∧ status_of (Raise (ValidationError "MerchandiseProduct")) = 500)
  ∧ (∀ e db', create_product new_oid db payload = (Raise e, db') ->
       db' = db
       ∧ (e = HTTPException 400 "Invalid category"
          ∨ e = HTTPException 400 "One or more invalid colors"
          ∨ e = ValidationError "MerchandiseProduct")).
Proof.
  repeat apply conj.
  - intros Hcat; unfold create_product.
    now rewrite bool_decide_false by assumption.
  - intros Hcat Hex; unfold create_product.
    rewrite bool_decide_true by assumption; simpl.
    destruct (existsb _ (CreateProduct.colors payload)) eqn:Hcolors; [reflexivity |].
    apply colors_check in Hcolors.
    apply Exists_exists in Hex as (c & Hc & Hbad).
    rewrite Forall_forall in Hcolors; now destruct (Hbad (Hcolors c Hc)).
  - intros Hcat Hcolors Hprice; unfold create_product.
    rewrite bool_decide_true by assumption; simpl.
    apply colors_check in Hcolors; rewrite Hcolors.
    unfold MerchandiseProduct.validate, ge0; simpl; rewrite Hprice.
    split; reflexivity.
  - intros e db' H; exact (create_product_Raise db db' payload e H).
Qed.

(** X14. A product is only created with a category of the four,
    colors of the palette that [create_order] accepts, and a [base_price]
    that is not below 0.0. The identifier returned is the printed form of
    the [_id] the database assigned; the orders and the products already
    there are as they were, and one document is added at the end, under that
    [_id], with the seven fields of the payload. *)
Theorem create_product_stores (db db' : Database) (payload : CreateProduct.t)
    (r : CreatedProduct) :
  create_product new_oid db payload = (Ok r, db') ->
  CreateProduct.category payload ∈ allowed_cats
  ∧ Forall (fun c => c ∈ allowed_colors) (CreateProduct.colors payload)
  ∧ PrimFloat.leb 0 (CreateProduct.base_price payload) = true
  ∧ new_product_id r = ObjectId.str (new_oid (product_docs db))
  ∧ order_docs db' = order_docs db
  ∧ ∃ d, product_docs db' = (product_docs db ++ [d])%list
      ∧ d !! "_id" = Some (VObjectId (new_oid (product_docs db)))
      ∧ d !! "title" = Some (VStr (CreateProduct.title payload))
      ∧ d !! "category" = Some (VStr (CreateProduct.category payload))
      ∧ d !! "description"
        = Some (from_option VStr VNone (CreateProduct.description payload))
      ∧ d !! "base_price" = Some (VFloat (CreateProduct.base_price payload))
      ∧ d !! "colors" = Some (VList (VStr <$> CreateProduct.colors payload))
      ∧ d !! "images" = Some (VList (VStr <$> CreateProduct.images payload))
      ∧ d !! "in_stock" = Some (VBool (CreateProduct.in_stock payload)).
Proof.
  intros H; apply create_product_Ok in H as (Hcat & Hcol & Hprice & Hid & Hord & Hdocs).
  repeat split; try assumption.
  eexists; split; [exact Hdocs |].
  repeat split; reflexivity.
Qed.

End ProductFacts.

(** ** Products created, then listed and ordered *)

Lemma omap_as_str_VStr (l : list string) : omap as_str (VStr <$> l) = l.
Proof. induction l as [|x l IH]; simpl; [reflexivity | f_equal; exact IH]. Qed.

(** How [create_order] reads the document [create_product] stores. *)
Lemma as_product_created (oid : ObjectId.t) (m : MerchandiseProduct.t) :
  as_product (<["_id" := VObjectId oid]> (MerchandiseProduct.model_dump m))
  = Some {| ProductDoc._id := oid;
            ProductDoc.title := Some (VStr (MerchandiseProduct.title m));
            ProductDoc.category := Some (VStr (MerchandiseProduct.category m));
            ProductDoc.base_price := Some (VFloat (MerchandiseProduct.base_price m));
            ProductDoc.colors := MerchandiseProduct.colors m |}.
Proof.
  unfold as_product.
  replace ((<["_id" := VObjectId oid]> (MerchandiseProduct.model_dump m)) !! "_id")
    with (Some (VObjectId oid)) by reflexivity.
  replace ((<["_id" := VObjectId oid]> (MerchandiseProduct.model_dump m)) !! "colors")
    with (Some (VList (VStr <$> MerchandiseProduct.colors m))) by reflexivity.
  rewrite omap_as_str_VStr; reflexivity.
Qed.

Section ProductsInUse.

Variable repr : value -> string.
Variable new_oid : list (gmap string value) -> ObjectId.t.
Variable new_id : list (string * Order.t) -> string.

(** X15. [list_products] answers with one document per product
    document, in the order of the collection. None has an [_id]; each has
    under [id] the printed form of the [ObjectId] its product document has
    under [_id], and every other field of its product document. *)
Theorem list_products_renders_all (db : Database) :
  Forall2 (fun d res =>
             ∃ d', res = Some d'
               ∧ d' !! "_id" = None
               ∧ (∀ o, d !! "_id" = Some (VObjectId o) ->
                       d' !! "id" = Some (VStr (ObjectId.str o)))
               ∧ (∀ k, k ≠ "_id" -> k ≠ "id" -> d' !! k = d !! k))
    (product_docs db) (list_products repr db).
Proof.
  unfold list_products, get_documents.
  induction (product_docs db) as [|d docs IH]; simpl; constructor; [| exact IH].
  destruct (to_str_id_Some repr d) as (d' & Hd' & Hnone & Hid & _ & Hrest).
  exists d'; repeat split; try assumption.
  intros o Ho; exact (Hid _ Ho).
Qed.

(** X16. A product just created is the last of the list: after a 201
    of [create_product], [list_products] answers as before with one more
    document, which has the identifier returned under [id], no [_id], and
    the title, category, price and colors of the payload. *)
Theorem created_product_is_listed (db db' : Database) (payload : CreateProduct.t)
    (r : CreatedProduct) :
  create_product new_oid db payload = (Ok r, db') ->
  ∃ d', list_products repr db' = (list_products repr db ++ [Some d'])%list
    ∧ d' !! "id" = Some (VStr (new_product_id r))
    ∧ d' !! "_id" = None
    ∧ d' !! "title" = Some (VStr (CreateProduct.title payload))
    ∧ d' !! "category" = Some (VStr (CreateProduct.category payload))
    ∧ d' !! "base_price" = Some (VFloat (CreateProduct.base_price payload))
    ∧ d' !! "colors" = Some (VList (VStr <$> CreateProduct.colors payload)).
Proof.
  intros H; apply create_product_Ok in H as (_ & _ & _ & Hid & _ & Hdocs).
  unfold list_products, get_documents; rewrite Hdocs, List.map_app; simpl.
  eexists; split; [reflexivity |].
  rewrite Hid; repeat split; reflexivity.
Qed.

(** X17. A product just created can be ordered. When the database
    assigned it a proper [ObjectId], a request for it alone, by the
    identifier returned, in a color the product declares and a quantity of
    at least 1, is not rejected: it is answered 201, unless the price times
    the quantity does not fit a [float] or breaks the schema. On a 201 the
    order stored has one item, with the title, the category and the price of
    the product's payload. *)
Theorem created_product_can_be_ordered (db db' : Database)
    (payload : CreateProduct.t) (r : CreatedProduct) (req : CreateOrder.t)
    (it : CreateOrderItem.t) :
  create_product new_oid db payload = (Ok r, db') ->
  proper_oid (new_oid (product_docs db)) ->
  CreateOrder.items req = [it] ->
  CreateOrderItem.product_id it = new_product_id r ->
  CreateOrderItem.color it ∈ CreateProduct.colors payload ->
  1 <= CreateOrderItem.quantity it ->
  (∃ c st' o oi,
      create_order new_id (store_of db') req = (Ok c, st')
      ∧ order st' = (order_docs db ++ [(id c, o)])%list
      ∧ Order.items o = [oi]
      ∧ OrderItem.title oi = CreateProduct.title payload
      ∧ OrderItem.category oi = CreateProduct.category payload
      ∧ OrderItem.unit_price oi = CreateProduct.base_price payload
      ∧ OrderItem.color oi = CreateOrderItem.color it)
  ∨ create_order new_id (store_of db') req = (Raise OverflowError, store_of db')
  ∨ ∃ model, create_order new_id (store_of db') req
             = (Raise (ValidationError model), store_of db').
Proof.
  intros H Hoid Hits Hpid Hcolor Hq.
  apply create_product_Ok in H as (_ & Hcolors & _ & Hid & Hord & Hdocs).
  destruct (proper_oid_str _ Hoid) as (Hvalid & Hnew & Hcanon).
  rewrite <- Hid, <- Hpid in Hvalid, Hnew, Hcanon.
  set (p := {| ProductDoc._id := new_oid (product_docs db);
               ProductDoc.title := Some (VStr (CreateProduct.title payload));
               ProductDoc.category := Some (VStr (CreateProduct.category payload));
               ProductDoc.base_price := Some (VFloat (CreateProduct.base_price payload));
               ProductDoc.colors := CreateProduct.colors payload |}).
  assert (Hmerch : merchandiseproduct (store_of db')
                   = (omap as_product (product_docs db) ++ [p])%list).
  { unfold store_of; simpl; rewrite Hdocs, omap_app; simpl.
    now rewrite as_product_created. }
  assert (Hok : Forall item_ok (CreateOrder.items req)).
  { rewrite Hits; constructor; [| constructor]; split; [| assumption].
    rewrite Forall_forall in Hcolors; exact (Hcolors _ Hcolor). }
  assert (Hall : Forall (fun it =>
              ObjectId.is_valid (CreateOrderItem.product_id it) = true
              ∧ canonical_id (CreateOrderItem.product_id it)
              ∧ ∃ d, d ∈ merchandiseproduct (store_of db')
                  ∧ ProductDoc._id d = ObjectId.new (CreateOrderItem.product_id it))
            (CreateOrder.items req)).
  { rewrite Hits; constructor; [| constructor].
    repeat split; try assumption.
    exists p; split; [| now rewrite Hnew].
    rewrite Hmerch; apply elem_of_app; right; now left. }
  assert (Hnd : NoDup (List.map CreateOrderItem.product_id (CreateOrder.items req))).
  { rewrite Hits; simpl; apply NoDup_singleton. }
  assert (Hlast : products_map_of (merchandiseproduct (store_of db')) [it]
                    !! CreateOrderItem.product_id it = Some p).
  { rewrite Hmerch.
    replace (CreateOrderItem.product_id it) with (ObjectId.str (ProductDoc._id p))
      by (simpl; now rewrite Hpid, Hid).
    apply products_map_of_last; unfold collect_ids; simpl.
    rewrite Hvalid; simpl; rewrite Hnew; now left. }
  unfold create_order.
  destruct (build_order_well_formed _ _ Hok Hall Hnd)
    as [_ [(o & g & Hb)|[Hb|(acc & e & Hadd & Hb)]]]; rewrite Hb; simpl;
    [| now eauto |].
  - left.
    apply build_order_Ok in Hb as (_ & _ & _ & Hitems & _).
    rewrite Hits in Hitems.
    apply Forall2_cons_inv_l in Hitems as (oi & ois & Hsnap & Hnil & Heq).
    apply Forall2_nil_inv_l in Hnil; subst ois.
    destruct Hsnap as (p' & Hp' & _ & Htitle & Hcat & Hcol & _ & _ & Hunit & _).
    rewrite Hlast in Hp'; injection Hp' as <-.
    simpl in Htitle, Hcat; injection Htitle as Htitle; injection Hcat as Hcat.
    injection Hunit as Hunit.
    eexists _, _, o, oi; split; [reflexivity |].
    simpl; rewrite Hord; repeat split; auto.
  - rewrite Hits in Hadd.
    apply add_items_priced_raises in Hadd as [->| ->]; eauto.
    constructor; [| constructor].
    exists p; split; [exact Hlast | exact I].
Qed.

End ProductsInUse.

(** ** The diagnostic endpoint *)





(** X18. The diagnosis names at most ten collections, the first ones
    the database lists, in their order; it names none when there is no
    database or when listing raises. *)
Theorem test_database_collections (db : option db_handle)
    (getenv : string -> option string) :
  (length (collections (test_database db getenv)) <= 10)%nat
  ∧ (∀ names, db = Some (Listing names) ->
       collections (test_database db getenv) `prefix_of` names
       ∧ ((length names <= 10)%nat ->
          collections (test_database db getenv) = names))
  ∧ ((∀ names, db ≠ Some (Listing names)) ->
     collections (test_database db getenv) = []).
Proof.
  repeat apply conj.
  - destruct db as [[names|message]|]; simpl; try lia.
    rewrite length_take; lia.
  - intros names ->; simpl; split.
    + apply prefix_take.
    + intros H; now apply take_ge.
  - intros H; destruct db as [[names|message]|]; simpl; try reflexivity.
    now destruct (H names).
Qed.

(** X19. The diagnosis says "Connected" exactly when there is a
    database and listing its collections works, and then it says the
    database is "Connected & Working"; otherwise it says "Not Connected". *)
Theorem test_database_connected (db : option db_handle)
    (getenv : string -> option string) :
  (connection_status (test_database db getenv) = "Connected"
   <-> ∃ names, db = Some (Listing names))
  ∧ (connection_status (test_database db getenv) = "Connected" ->
     database (test_database db getenv) = "✅ Connected & Working")
  ∧ (connection_status (test_database db getenv) ≠ "Connected" ->
     connection_status (test_database db getenv) = "Not Connected")
  ∧ backend (test_database db getenv) = "✅ Running".
Proof.
  destruct db as [[names|message]|]; simpl; repeat split;
    try discriminate; try reflexivity; eauto;
    try (intros (names' & [=])); try (intros H; now destruct H).
Qed.


Lemma set_or_not_spec (v : option string) :
  (set_or_not v = "✅ Set" <-> ∃ s, v = Some s ∧ s ≠ EmptyString)
  ∧ (set_or_not v = "❌ Not Set" <-> ¬ ∃ s, v = Some s ∧ s ≠ EmptyString).
Proof.
  assert (Hdec : (∃ s, v = Some s ∧ s ≠ EmptyString) ∧ set_or_not v = "✅ Set"
                 ∨ (¬ ∃ s, v = Some s ∧ s ≠ EmptyString)
                   ∧ set_or_not v = "❌ Not Set").
  { destruct v as [[|c s]|]; unfold set_or_not; simpl.
    - right; split; [intros (s & [= <-] & H); now apply H | reflexivity].
    - left; split; [| reflexivity].
      exists (String c s); split; [reflexivity | discriminate].
    - right; split; [intros (s & [=] & _) | reflexivity]. }
  destruct Hdec as [[H1 H2]|[H1 H2]]; rewrite H2; split; split; intros H;
    try assumption; try reflexivity; try congruence; try contradiction.
Qed.

(** X21. The diagnosis reports on the two environment variables only
    when there is a database, and then says "Set" for a variable exactly
    when it is set to something other than the empty string. *)
Theorem test_database_environment (db : option db_handle)
    (getenv : string -> option string) :
  (db = None ->
   database_url (test_database db getenv) = None
   ∧ database_name (test_database db getenv) = None)
  ∧ (db ≠ None ->
     (database_url (test_database db getenv) = Some "✅ Set"
      <-> ∃ s, getenv "DATABASE_URL" = Some s ∧ s ≠ EmptyString)
     ∧ (database_url (test_database db getenv) = Some "❌ Not Set"
        <-> ¬ ∃ s, getenv "DATABASE_URL" = Some s ∧ s ≠ EmptyString)
     ∧ (database_name (test_database db getenv) = Some "✅ Set"
        <-> ∃ s, getenv "DATABASE_NAME" = Some s ∧ s ≠ EmptyString)
     ∧ (database_name (test_database db getenv) = Some "❌ Not Set"
        <-> ¬ ∃ s, getenv "DATABASE_NAME" = Some s ∧ s ≠ EmptyString)).
Proof.
  pose proof set_or_not_spec as Hset.
  assert (Hinj : ∀ a b : string, Some a = Some b <-> a = b)
    by (intros a b; split; [now intros [=] | now intros ->]).
  split.
  - intros ->; split; reflexivity.
  - intros Hdb; destruct db as [[names|message]|]; [| | contradiction]; simpl;
      rewrite !Hinj; repeat split; apply Hset.
Qed.

End Properties.

(** * The examples *)

#[global] Existing Instance reads_no_number.

(** ** The examples, run *)

Example sam_order_runs :
  create_order numbered shop sam_order = (Ok sam_created, sam_shop).
Proof. vm_compute; reflexivity. Qed.

Example mixed_order_runs :
  create_order numbered shop mixed_order = (Ok mixed_created, mixed_shop).
Proof. vm_compute; reflexivity. Qed.

(** The spec's example with a blank text: no fee, and a total of 40.0. *)
Example blank_text_runs :
  fst (create_order numbered shop
         (request [item hoodie_id "black" 2 (Some EmptyString)]))
  = Ok {| id := "order-0"; grand_total := 40%float |}.
Proof. vm_compute; reflexivity. Qed.

(** The hoodie declares green only, and is sold in black all the same. *)
Example undeclared_color_accepted :
  ("black" ∉ ProductDoc.colors hoodie)
  ∧ fst (create_order numbered shop sam_order) = Ok sam_created.
Proof.
  split; [| vm_compute; reflexivity].
  unfold hoodie; simpl; intros H; apply list_elem_of_In in H as [H|[]]; discriminate.
Qed.

(** An identifier in upper case is valid and finds its product, yet the
    dictionary is keyed in lower case: the lookup of the second loop
    raises [KeyError], and the response is a 500. *)
Example upper_case_id_raises :
  create_order numbered shop
    (request [item "64B7F3A2C9E1D4F5A6B7C8D9" "black" 1 None])
  = (Raise (KeyError "64B7F3A2C9E1D4F5A6B7C8D9"), shop).
Proof. vm_compute; reflexivity. Qed.

(** An identifier of 22 digits and two spaces is valid, and names no
    product: the request is answered 400 "One or more products not found",
    not "Invalid product id". *)
Example spaced_id_is_not_found :
  ObjectId.is_valid spaced_id = true
  ∧ create_order numbered shop (request [item spaced_id "black" 1 None])
    = (Raise (HTTPException 400 "One or more products not found"), shop).
Proof. split; vm_compute; reflexivity. Qed.

(** White space beyond ASCII is white space: a text of an EM SPACE and a
    space is blank, and no fee is charged for it. *)
Example em_space_is_blank :
  str_len (em_space +:+ " ") = 2%nat
  ∧ strip (em_space +:+ " ") = EmptyString
  ∧ strip (em_space +:+ "Jo" +:+ em_space) = "Jo"
  ∧ fst (create_order numbered shop
           (request [item hoodie_id "black" 2 (Some (em_space +:+ " "))]))
    = Ok {| id := "order-0"; grand_total := 40%float |}.
Proof. repeat split; vm_compute; reflexivity. Qed.

(** A letter of two bytes is no white space, and is kept whole. *)
Example e_acute_is_not_blank :
  str_len e_acute = 1%nat
  ∧ strip (" " +:+ e_acute +:+ " ") = e_acute
  ∧ str_slice_to 1 (e_acute +:+ "x") = e_acute.
Proof. repeat split; vm_compute; reflexivity. Qed.

(** A price that is an [int] is converted: 20 is 20.0, and the order of the
    spec's example comes to 56.0 all the same. *)
Example int_price_is_converted :
  fst (create_order numbered
         (shop_with (Some (VStr "Classic Hoodie")) (Some (VInt 20))) sam_order)
  = Ok sam_created.
Proof. vm_compute; reflexivity. Qed.

(** A price that is [None] is no missing price: [float] raises [TypeError]. *)
Example null_price_raises :
  fst (create_order numbered
         (shop_with (Some (VStr "Classic Hoodie")) (Some VNone)) sam_order)
  = Raise TypeError.
Proof. vm_compute; reflexivity. Qed.

(** A title that is no [str] fails the schema of the item. *)
Example int_title_raises :
  fst (create_order numbered (shop_with (Some (VInt 7)) (Some (VFloat 20))) sam_order)
  = Raise (ValidationError "OrderItem").
Proof. vm_compute; reflexivity. Qed.

(** C1. Two items of one request that name the same existing product,
    with quantities 1 and 3 and colors of the palette, should give an order
    of two separate line items. The endpoint does not get that far: the
    dictionary of the products found holds the product once, its size is
    compared with the number of items, and the request is answered 400
    "One or more products not found" with nothing stored. *)
Theorem same_product_twice_is_rejected :
  create_order numbered shop twice_order
  = (Raise (HTTPException 400 "One or more products not found"), shop).
Proof. vm_compute; reflexivity. Qed.

(** ** The theorems at the examples *)

Lemma order_totals_are_sums_witness :
  create_order numbered shop mixed_order = (Ok mixed_created, mixed_shop)
  ∧ ∃ o, order mixed_shop = (order shop ++ [(id mixed_created, o)])%list
      ∧ Order.sub_total o
        = fsum (List.map (fun oi => (OrderItem.unit_price oi
                                     * Z2float (OrderItem.quantity oi))%float)
                  (Order.items o))
      ∧ Order.embroidery_total o
        = fsum (List.map (fun oi => (OrderItem.embroidery_fee oi
                                     * Z2float (OrderItem.quantity oi))%float)
                  (Order.items o))
      ∧ Order.grand_total o = (Order.sub_total o + Order.embroidery_total o)%float.
Proof.
  assert (H : create_order numbered shop mixed_order = (Ok mixed_created, mixed_shop))
    by (vm_compute; reflexivity).
  split; [exact H |].
  exact (order_totals_are_sums numbered shop mixed_shop mixed_order mixed_created H).
Defined.

Lemma embroidery_fee_follows_text_witness :
  create_order numbered shop mixed_order = (Ok mixed_created, mixed_shop)
  ∧ ∃ o, order mixed_shop = (order shop ++ [(id mixed_created, o)])%list
      ∧ Forall (fun oi =>
          (nonblank (OrderItem.embroidery_text oi)
           -> OrderItem.embroidery_fee oi = 8%float)
          ∧ (blank_or_absent (OrderItem.embroidery_text oi)
             -> OrderItem.embroidery_fee oi = 0%float))
          (Order.items o).
Proof.
  assert (H : create_order numbered shop mixed_order = (Ok mixed_created, mixed_shop))
    by (vm_compute; reflexivity).
  split; [exact H |].
  exact (embroidery_fee_follows_text numbered shop mixed_shop mixed_order mixed_created H).
Defined.

Lemma unit_price_and_line_total_witness :
  create_order numbered shop sam_order = (Ok sam_created, sam_shop)
  ∧ ∃ o, order sam_shop = (order shop ++ [(id sam_created, o)])%list
      ∧ Forall2 (fun it oi =>
          (∃ p, products_map_of (merchandiseproduct shop) (CreateOrder.items sam_order)
                  !! CreateOrderItem.product_id it = Some p
             ∧ p ∈ merchandiseproduct shop
             ∧ ObjectId.str (ProductDoc._id p) = CreateOrderItem.product_id it
             ∧ (∀ b, ProductDoc.base_price p = Some (VFloat b) ->
                     OrderItem.unit_price oi = b)
             ∧ (∀ z, ProductDoc.base_price p = Some (VInt z) ->
                     OrderItem.unit_price oi = Z2float z))
          ∧ OrderItem.line_total oi
            = ((OrderItem.unit_price oi + OrderItem.embroidery_fee oi)
               * Z2float (OrderItem.quantity oi))%float)
          (CreateOrder.items sam_order) (Order.items o).
Proof.
  assert (H : create_order numbered shop sam_order = (Ok sam_created, sam_shop))
    by (vm_compute; reflexivity).
  split; [exact H |].
  exact (unit_price_and_line_total numbered shop sam_shop sam_order sam_created H).
Defined.

Lemma items_follow_request_witness :
  create_order numbered shop mixed_order = (Ok mixed_created, mixed_shop)
  ∧ ∃ o, order mixed_shop = (order shop ++ [(id mixed_created, o)])%list
      ∧ length (Order.items o) = length (CreateOrder.items mixed_order)
      ∧ Forall2 (fun it oi =>
          (∃ p, products_map_of (merchandiseproduct shop) (CreateOrder.items mixed_order)
                  !! CreateOrderItem.product_id it = Some p
             ∧ p ∈ merchandiseproduct shop
             ∧ ObjectId.str (ProductDoc._id p) = CreateOrderItem.product_id it
             ∧ VStr (OrderItem.title oi)
               = default (VStr EmptyString) (ProductDoc.title p)
             ∧ VStr (OrderItem.category oi)
               = default (VStr EmptyString) (ProductDoc.category p))
          ∧ OrderItem.product_id oi = CreateOrderItem.product_id it
          ∧ OrderItem.color oi = CreateOrderItem.color it
          ∧ OrderItem.quantity oi = CreateOrderItem.quantity it
          ∧ OrderItem.embroidery_text oi = CreateOrderItem.embroidery_text it)
          (CreateOrder.items mixed_order) (Order.items o).
Proof.
  assert (H : create_order numbered shop mixed_order = (Ok mixed_created, mixed_shop))
    by (vm_compute; reflexivity).
  split; [exact H |].
  exact (items_follow_request numbered shop mixed_shop mixed_order mixed_created H).
Defined.

Lemma rejection_persists_nothing_witness :
  create_order numbered shop bad_order
  = (Raise (HTTPException 400 "Quantity must be >= 1"), shop)
  ∧ shop = shop.
Proof.
  assert (H : create_order numbered shop bad_order
              = (Raise (HTTPException 400 "Quantity must be >= 1"), shop))
    by (vm_compute; reflexivity).
  split; [exact H |].
  exact (rejection_persists_nothing numbered shop shop bad_order _ H).
Defined.

Lemma product_colors_do_not_matter_witness :
  Forall2 same_but_colors (merchandiseproduct shop) (merchandiseproduct repainted_shop)
  ∧ order shop = order repainted_shop
  ∧ (fst (create_order numbered shop sam_order)
     = fst (create_order numbered repainted_shop sam_order)
     ∧ order (snd (create_order numbered shop sam_order))
       = order (snd (create_order numbered repainted_shop sam_order)))
  ∧ (let bare :=
       {| merchandiseproduct := List.map (with_colors []) (merchandiseproduct shop);
          order := order shop |} in
     fst (create_order numbered bare sam_order)
     = fst (create_order numbered shop sam_order)
     ∧ order (snd (create_order numbered bare sam_order))
       = order (snd (create_order numbered shop sam_order))).
Proof.
  assert (H1 : Forall2 same_but_colors (merchandiseproduct shop)
                 (merchandiseproduct repainted_shop)).
  { repeat constructor. }
  assert (H2 : order shop = order repainted_shop) by reflexivity.
  split; [exact H1 |]. split; [exact H2 |].
  exact (product_colors_do_not_matter numbered shop repainted_shop sam_order H1 H2).
Defined.

Lemma rejections_and_response_witness :
  create_order numbered shop bad_order
  = (Raise (HTTPException 400 "Quantity must be >= 1"), shop)
  ∧ create_order numbered shop
      (request [item hoodie_id "green" 1 None; item "hoodie" "white" 2 None])
    = (Raise (HTTPException 400 "Invalid product id"), shop).
Proof.
  assert (Hgreen : item_ok (item hoodie_id "green" 1 None)).
  { split; [apply allowed_colors_check; vm_compute; reflexivity | simpl; lia]. }
  assert (Hwhite : item_ok (item "hoodie" "white" 2 None)).
  { split; [apply allowed_colors_check; vm_compute; reflexivity | simpl; lia]. }
  split.
  - destruct (rejections_and_response numbered shop bad_order) as (_ & Hq & _).
    apply (Hq [item hoodie_id "green" 1 None] (item hoodie_id "green" 0 None)
              [item hoodie_id "purple" 1 None]).
    + reflexivity.
    + constructor; [exact Hgreen | constructor].
    + apply allowed_colors_check; vm_compute; reflexivity.
    + simpl; lia.
  - destruct (rejections_and_response numbered shop
                (request [item hoodie_id "green" 1 None; item "hoodie" "white" 2 None]))
      as (_ & _ & Hid & _).
    apply Hid.
    + constructor; [exact Hgreen | constructor; [exact Hwhite | constructor]].
    + apply Exists_cons_tl, Exists_cons_hd; vm_compute; reflexivity.
Defined.

Lemma missing_base_price_is_zero_witness :
  create_order numbered shop mixed_order = (Ok mixed_created, mixed_shop)
  ∧ unit_price_of beanie = Ok 0%float
  ∧ ∃ o, order mixed_shop = (order shop ++ [(id mixed_created, o)])%list
      ∧ Forall2 (fun it oi =>
          ∀ p, products_map_of (merchandiseproduct shop) (CreateOrder.items mixed_order)
                 !! CreateOrderItem.product_id it = Some p ->
               ProductDoc.base_price p = None ->
               OrderItem.unit_price oi = 0%float
               ∧ OrderItem.line_total oi
                 = (OrderItem.embroidery_fee oi
                    * Z2float (OrderItem.quantity oi))%float)
          (CreateOrder.items mixed_order) (Order.items o).
Proof.
  assert (H : create_order numbered shop mixed_order = (Ok mixed_created, mixed_shop))
    by (vm_compute; reflexivity).
  destruct (missing_base_price_is_zero numbered shop mixed_order) as (Hp & _ & Hi).
  split; [exact H |].
  split; [apply Hp; reflexivity |].
  exact (Hi mixed_created mixed_shop H).
Defined.

(** ** The further theorems at the examples *)

Example hoodie_is_created :
  create_product first_oid empty_db hoodie_payload = (Ok hoodie_created, hoodie_db).
Proof. vm_compute; reflexivity. Qed.

Example scarf_order_raises :
  create_order numbered odd_shop scarf_order
  = (Raise (ValidationError "OrderItem"), odd_shop).
Proof. vm_compute; reflexivity. Qed.

Example huge_order_raises :
  create_order numbered shop huge_order = (Raise OverflowError, shop).
Proof. vm_compute; reflexivity. Qed.

Lemma create_order_extends_the_store_witness :
  create_order numbered shop sam_order = (Ok sam_created, sam_shop)
  ∧ merchandiseproduct sam_shop = merchandiseproduct shop
  ∧ ((∃ r o, Ok sam_created = Ok r ∧ id r = numbered (order shop)
             ∧ order sam_shop = (order shop ++ [(id r, o)])%list)
     ∨ (∃ e, Ok sam_created = Raise e ∧ order sam_shop = order shop)).
Proof.
  assert (H : create_order numbered shop sam_order = (Ok sam_created, sam_shop))
    by (vm_compute; reflexivity).
  split; [exact H |].
  exact (create_order_extends_the_store numbered shop sam_shop sam_order _ H).
Defined.

Lemma created_order_has_distinct_products_witness :
  create_order numbered shop mixed_order = (Ok mixed_created, mixed_shop)
  ∧ NoDup (List.map CreateOrderItem.product_id (CreateOrder.items mixed_order)).
Proof.
  assert (H : create_order numbered shop mixed_order = (Ok mixed_created, mixed_shop))
    by (vm_compute; reflexivity).
  split; [exact H |].
  exact (created_order_has_distinct_products numbered shop mixed_shop mixed_order _ H).
Defined.

Lemma created_order_has_canonical_ids_witness :
  create_order numbered shop mixed_order = (Ok mixed_created, mixed_shop)
  ∧ Forall (fun it => canonical_id (CreateOrderItem.product_id it))
      (CreateOrder.items mixed_order).
Proof.
  assert (H : create_order numbered shop mixed_order = (Ok mixed_created, mixed_shop))
    by (vm_compute; reflexivity).
  split; [exact H |].
  exact (created_order_has_canonical_ids numbered shop mixed_shop mixed_order _ H).
Defined.

Lemma stored_order_is_within_schema_witness :
  create_order numbered shop mixed_order = (Ok mixed_created, mixed_shop)
  ∧ ∃ o, order mixed_shop = (order shop ++ [(id mixed_created, o)])%list
      ∧ Forall (fun oi => 1 <= OrderItem.quantity oi
                          ∧ OrderItem.color oi ∈ allowed_colors
                          ∧ PrimFloat.leb 0 (OrderItem.unit_price oi) = true
                          ∧ PrimFloat.leb 0 (OrderItem.embroidery_fee oi) = true
                          ∧ PrimFloat.leb 0 (OrderItem.line_total oi) = true)
          (Order.items o)
      ∧ PrimFloat.leb 0 (Order.sub_total o) = true
      ∧ PrimFloat.leb 0 (Order.embroidery_total o) = true
      ∧ PrimFloat.leb 0 (Order.grand_total o) = true.
Proof.
  assert (H : create_order numbered shop mixed_order = (Ok mixed_created, mixed_shop))
    by (vm_compute; reflexivity).
  split; [exact H |].
  exact (stored_order_is_within_schema numbered shop mixed_shop mixed_order _ H).
Defined.

Lemma negative_price_is_never_ordered_witness :
  item scarf_id "black" 1 None ∈ CreateOrder.items scarf_order
  ∧ products_map_of (merchandiseproduct odd_shop) (CreateOrder.items scarf_order)
      !! scarf_id = Some scarf
  ∧ ProductDoc.base_price scarf = Some (VFloat (-5))
  ∧ py_float (VFloat (-5)) = Ok (-5)%float
  ∧ PrimFloat.leb 0 (-5) = false
  ∧ ∃ e, create_order numbered odd_shop scarf_order = (Raise e, odd_shop).
Proof.
  assert (H1 : item scarf_id "black" 1 None ∈ CreateOrder.items scarf_order)
    by (simpl; left).
  assert (H2 : products_map_of (merchandiseproduct odd_shop)
                 (CreateOrder.items scarf_order) !! scarf_id = Some scarf)
    by (vm_compute; reflexivity).
  assert (H3 : ProductDoc.base_price scarf = Some (VFloat (-5))) by reflexivity.
  assert (H4 : py_float (VFloat (-5)) = Ok (-5)%float) by reflexivity.
  assert (H5 : PrimFloat.leb 0 (-5) = false) by reflexivity.
  repeat (split; [assumption |]).
  exact (negative_price_is_never_ordered numbered odd_shop scarf_order _ _ _ _
           H1 H2 H3 H4 H5).
Defined.

Lemma huge_quantity_is_never_ordered_witness :
  item hoodie_id "black" (2 ^ 1024) None ∈ CreateOrder.items huge_order
  ∧ ¬ fits_float (2 ^ 1024)
  ∧ ∃ e, create_order numbered shop huge_order = (Raise e, shop).
Proof.
  assert (H1 : item hoodie_id "black" (2 ^ 1024) None ∈ CreateOrder.items huge_order)
    by (simpl; left).
  assert (H2 : ¬ fits_float (2 ^ 1024))
    by (unfold fits_float; vm_compute; discriminate).
  repeat (split; [assumption |]).
  exact (huge_quantity_is_never_ordered numbered shop huge_order _ H1 H2).
Defined.

Lemma stored_order_keeps_customer_witness :
  create_order numbered shop sam_order = (Ok sam_created, sam_shop)
  ∧ ∃ o, order sam_shop = (order shop ++ [(id sam_created, o)])%list
      ∧ Order.customer_name o = CreateOrder.customer_name sam_order
      ∧ Order.customer_email o = CreateOrder.customer_email sam_order
      ∧ Order.notes o = CreateOrder.notes sam_order.
Proof.
  assert (H : create_order numbered shop sam_order = (Ok sam_created, sam_shop))
    by (vm_compute; reflexivity).
  split; [exact H |].
  exact (stored_order_keeps_customer numbered shop sam_shop sam_order _ H).
Defined.

Lemma first_checks_ignore_the_store_witness :
  Exists (fun it => ¬ item_ok it) (CreateOrder.items bad_order)
  ∧ ∃ e, ∀ new_id st, create_order new_id st bad_order = (Raise e, st).
Proof.
  assert (H : Exists (fun it => ¬ item_ok it) (CreateOrder.items bad_order)).
  { apply Exists_cons_tl, Exists_cons_hd; intros [_ Hq]; simpl in Hq; lia. }
  split; [exact H |].
  exact (first_checks_ignore_the_store bad_order H).
Defined.

Lemma missing_order_checks :
  Forall item_ok (CreateOrder.items missing_order)
  ∧ Forall (fun it => ObjectId.is_valid (CreateOrderItem.product_id it) = true)
      (CreateOrder.items missing_order).
Proof.
  split.
  - repeat constructor; try (apply allowed_colors_check; vm_compute; reflexivity);
      simpl; lia.
  - repeat constructor.
Qed.

Lemma missing_product_is_not_found_witness :
  Forall item_ok (CreateOrder.items missing_order)
  ∧ Forall (fun it => ObjectId.is_valid (CreateOrderItem.product_id it) = true)
      (CreateOrder.items missing_order)
  ∧ item missing_id "green" 1 None ∈ CreateOrder.items missing_order
  ∧ (∀ d, d ∈ merchandiseproduct shop -> ProductDoc._id d ≠ ObjectId.new missing_id)
  ∧ create_order numbered shop missing_order
    = (Raise (HTTPException 400 "One or more products not found"), shop).
Proof.
  destruct missing_order_checks as [H1 H2].
  assert (H3 : item missing_id "green" 1 None ∈ CreateOrder.items missing_order)
    by (simpl; right; left).
  assert (H4 : ∀ d, d ∈ merchandiseproduct shop ->
                    ProductDoc._id d ≠ ObjectId.new missing_id).
  { intros d Hd; simpl in Hd.
    apply elem_of_cons in Hd as [->|Hd]; [intros H; vm_compute in H; discriminate |].
    apply elem_of_cons in Hd as [->|Hd]; [intros H; vm_compute in H; discriminate |].
    now apply elem_of_nil in Hd. }
  repeat (split; [assumption |]).
  exact (missing_product_is_not_found numbered shop missing_order _ H1 H2 H3 H4).
Defined.

Lemma mixed_order_is_well_formed :
  Forall item_ok (CreateOrder.items mixed_order)
  ∧ Forall (fun it => ObjectId.is_valid (CreateOrderItem.product_id it) = true
                      ∧ canonical_id (CreateOrderItem.product_id it)
                      ∧ ∃ d, d ∈ merchandiseproduct shop
                          ∧ ProductDoc._id d
                            = ObjectId.new (CreateOrderItem.product_id it))
      (CreateOrder.items mixed_order)
  ∧ NoDup (List.map CreateOrderItem.product_id (CreateOrder.items mixed_order)).
Proof.
  repeat apply conj.
  - repeat constructor; try (apply allowed_colors_check; vm_compute; reflexivity);
      simpl; lia.
  - constructor; [| constructor; [| constructor]].
    + split; [reflexivity |]. split; [vm_compute; reflexivity |].
      exists hoodie; split; [left | reflexivity].
    + split; [reflexivity |]. split; [vm_compute; reflexivity |].
      exists beanie; split; [right; left | reflexivity].
  - simpl; apply NoDup_cons; split; [| apply NoDup_singleton].
    intros H; apply list_elem_of_singleton in H; discriminate.
Qed.

Lemma well_formed_request_is_not_rejected_witness :
  Forall item_ok (CreateOrder.items mixed_order)
  ∧ Forall (fun it => ObjectId.is_valid (CreateOrderItem.product_id it) = true
                      ∧ canonical_id (CreateOrderItem.product_id it)
                      ∧ ∃ d, d ∈ merchandiseproduct shop
                          ∧ ProductDoc._id d
                            = ObjectId.new (CreateOrderItem.product_id it))
      (CreateOrder.items mixed_order)
  ∧ NoDup (List.map CreateOrderItem.product_id (CreateOrder.items mixed_order))
  ∧ (∀ it p, it ∈ CreateOrder.items mixed_order ->
       products_map_of (merchandiseproduct shop) (CreateOrder.items mixed_order)
         !! CreateOrderItem.product_id it = Some p ->
       number_or_missing (ProductDoc.base_price p))
  ∧ ((∃ r, fst (create_order numbered shop mixed_order) = Ok r)
     ∨ fst (create_order numbered shop mixed_order) = Raise OverflowError
     ∨ fst (create_order numbered shop mixed_order) = Raise TypeError
     ∨ fst (create_order numbered shop mixed_order) = Raise ValueError
     ∨ ∃ model, fst (create_order numbered shop mixed_order)
                = Raise (ValidationError model))
  ∧ ((∃ r, fst (create_order numbered shop mixed_order) = Ok r)
     ∨ fst (create_order numbered shop mixed_order) = Raise OverflowError
     ∨ ∃ model, fst (create_order numbered shop mixed_order)
                = Raise (ValidationError model)).
Proof.
  destruct mixed_order_is_well_formed as (H1 & H2 & H3).
  assert (H4 : ∀ it p, it ∈ CreateOrder.items mixed_order ->
             products_map_of (merchandiseproduct shop) (CreateOrder.items mixed_order)
               !! CreateOrderItem.product_id it = Some p ->
             number_or_missing (ProductDoc.base_price p)).
  { intros it p Hit Hp.
    apply products_map_of_lookup in Hp as (Hin & _); simpl in Hin.
    apply elem_of_cons in Hin as [->|Hin]; [exact I |].
    apply elem_of_cons in Hin as [->|Hin]; [exact I |].
    now apply elem_of_nil in Hin. }
  repeat (split; [assumption |]).
  destruct (well_formed_request_is_not_rejected numbered shop mixed_order H1 H2 H3)
    as [Hany Hnum].
  split; [exact Hany | exact (Hnum H4)].
Defined.

Lemma create_product_stores_witness :
  create_product first_oid empty_db hoodie_payload = (Ok hoodie_created, hoodie_db)
  ∧ CreateProduct.category hoodie_payload ∈ allowed_cats
  ∧ Forall (fun c => c ∈ allowed_colors) (CreateProduct.colors hoodie_payload)
  ∧ PrimFloat.leb 0 (CreateProduct.base_price hoodie_payload) = true
  ∧ new_product_id hoodie_created = ObjectId.str (first_oid (product_docs empty_db))
  ∧ order_docs hoodie_db = order_docs empty_db
  ∧ ∃ d, product_docs hoodie_db = (product_docs empty_db ++ [d])%list
      ∧ d !! "_id" = Some (VObjectId (first_oid (product_docs empty_db)))
      ∧ d !! "title" = Some (VStr (CreateProduct.title hoodie_payload))
      ∧ d !! "category" = Some (VStr (CreateProduct.category hoodie_payload))
      ∧ d !! "description"
        = Some (from_option VStr VNone (CreateProduct.description hoodie_payload))
      ∧ d !! "base_price" = Some (VFloat (CreateProduct.base_price hoodie_payload))
      ∧ d !! "colors" = Some (VList (VStr <$> CreateProduct.colors hoodie_payload))
      ∧ d !! "images" = Some (VList (VStr <$> CreateProduct.images hoodie_payload))
      ∧ d !! "in_stock" = Some (VBool (CreateProduct.in_stock hoodie_payload)).
Proof.
  assert (H : create_product first_oid empty_db hoodie_payload
              = (Ok hoodie_created, hoodie_db)) by (vm_compute; reflexivity).
  split; [exact H |].
  exact (create_product_stores first_oid empty_db hoodie_db hoodie_payload _ H).
Defined.

Lemma created_product_is_listed_witness :
  create_product first_oid empty_db hoodie_payload = (Ok hoodie_created, hoodie_db)
  ∧ ∃ d', list_products question_mark hoodie_db
          = (list_products question_mark empty_db ++ [Some d'])%list
      ∧ d' !! "id" = Some (VStr (new_product_id hoodie_created))
      ∧ d' !! "_id" = None
      ∧ d' !! "title" = Some (VStr (CreateProduct.title hoodie_payload))
      ∧ d' !! "category" = Some (VStr (CreateProduct.category hoodie_payload))
      ∧ d' !! "base_price" = Some (VFloat (CreateProduct.base_price hoodie_payload))
      ∧ d' !! "colors" = Some (VList (VStr <$> CreateProduct.colors hoodie_payload)).
Proof.
  assert (H : create_product first_oid empty_db hoodie_payload
              = (Ok hoodie_created, hoodie_db)) by (vm_compute; reflexivity).
  split; [exact H |].
  exact (created_product_is_listed question_mark first_oid empty_db hoodie_db
           hoodie_payload _ H).
Defined.

Lemma created_product_can_be_ordered_witness :
  create_product first_oid empty_db hoodie_payload = (Ok hoodie_created, hoodie_db)
  ∧ proper_oid (first_oid (product_docs empty_db))
  ∧ CreateOrder.items sam_order = [item hoodie_id "black" 2 (Some "Sam")]
  ∧ CreateOrderItem.product_id (item hoodie_id "black" 2 (Some "Sam"))
    = new_product_id hoodie_created
  ∧ CreateOrderItem.color (item hoodie_id "black" 2 (Some "Sam"))
    ∈ CreateProduct.colors hoodie_payload
  ∧ 1 <= CreateOrderItem.quantity (item hoodie_id "black" 2 (Some "Sam"))
  ∧ ((∃ c st' o oi,
         create_order numbered (store_of hoodie_db) sam_order = (Ok c, st')
         ∧ order st' = (order_docs empty_db ++ [(id c, o)])%list
         ∧ Order.items o = [oi]
         ∧ OrderItem.title oi = CreateProduct.title hoodie_payload
         ∧ OrderItem.category oi = CreateProduct.category hoodie_payload
         ∧ OrderItem.unit_price oi = CreateProduct.base_price hoodie_payload
         ∧ OrderItem.color oi
           = CreateOrderItem.color (item hoodie_id "black" 2 (Some "Sam")))
     ∨ create_order numbered (store_of hoodie_db) sam_order
       = (Raise OverflowError, store_of hoodie_db)
     ∨ ∃ model, create_order numbered (store_of hoodie_db) sam_order
                = (Raise (ValidationError model), store_of hoodie_db)).
Proof.
  assert (H1 : create_product first_oid empty_db hoodie_payload
               = (Ok hoodie_created, hoodie_db)) by (vm_compute; reflexivity).
  assert (H2 : proper_oid (first_oid (product_docs empty_db)))
    by (split; [reflexivity | repeat constructor]).
  assert (H3 : CreateOrder.items sam_order = [item hoodie_id "black" 2 (Some "Sam")])
    by reflexivity.
  assert (H4 : CreateOrderItem.product_id (item hoodie_id "black" 2 (Some "Sam"))
               = new_product_id hoodie_created) by reflexivity.
  assert (H5 : CreateOrderItem.color (item hoodie_id "black" 2 (Some "Sam"))
               ∈ CreateProduct.colors hoodie_payload) by (simpl; right; left).
  assert (H6 : 1 <= CreateOrderItem.quantity (item hoodie_id "black" 2 (Some "Sam")))
    by (simpl; lia).
  repeat (split; [assumption |]).
  exact (created_product_can_be_ordered first_oid numbered empty_db hoodie_db
           hoodie_payload _ sam_order _ H1 H2 H3 H4 H5 H6).
Defined.

(** The hoodie just created is ordered, and the answer is the 201 of the
    spec's example. *)
Example created_hoodie_is_ordered :
  fst (create_order numbered (store_of hoodie_db) sam_order) = Ok sam_created.
Proof. vm_compute; reflexivity. Qed.
